(** * HerbalTrace: the portal handlers and the QR traceability flow

    A shallow embedding of the event handlers of the HerbalTrace portals
    (src/pages/*.tsx, src/components/auth/AuthForm.tsx) together with the
    row store they talk to, followed by the properties of the
    specification that were checked against them.

    Layout: [JS] (values, strings, built-ins), [Store] (the hosted row
    store), [UI] (toasts, the handler monad), [QR] and [Aggregator] (the
    token codec and the trace resolution of src/utils/blockchain), one
    module per page, [Portals] (the user actions side by side), [Sample]
    (concrete data), then the theorems. *)

From Stdlib Require Import String Ascii List Bool Arith NArith ZArith Lia.
From Stdlib Require Import Permutation DecimalString.
Import ListNotations.

Local Open Scope string_scope.
Local Open Scope list_scope.

Set Warnings "-register-all".

(* ================================================================== *)
(** ** JavaScript values and built-ins *)
(* ================================================================== *)

Module JS.

(** A JS number. The portals never compute with numbers, they only carry
    them from [parseFloat]/[parseInt] to the store, so a decimal
    mantissa/exponent pair (or NaN) is enough to tell them apart. *)
Inductive number : Type :=
| NaN
| Dec (mantissa exponent : Z).

(** Values of type [any]: what the store returns and what object literals
    passed to it contain. An object is its list of properties, first
    binding first. *)
Inductive value : Type :=
| undefined
| null
| Bool (b : bool)
| Num (n : number)
| Str (s : string)
| Arr (items : list value)
| Obj (props : list (string * value)).

Definition row : Type := list (string * value).

(** [o.k]: property access, [undefined] when the property is absent. *)
Fixpoint get (k : string) (o : row) : value :=
  match o with
  | [] => undefined
  | (k', v) :: o' => if k' =? k then v else get k o'
  end.

(** [o?.k] on a possibly null object. *)
Definition opt_get (k : string) (o : option row) : value :=
  match o with
  | Some r => get k r
  | None => undefined
  end.

(** Assignment of one property: the existing binding is replaced in place,
    a new one is added at the end. *)
Fixpoint set (k : string) (v : value) (o : row) : row :=
  match o with
  | [] => [(k, v)]
  | (k', v') :: o' => if k' =? k then (k, v) :: o' else (k', v') :: set k v o'
  end.

(** [{...o, ...patch}] *)
Definition assign (o patch : row) : row :=
  fold_left (fun acc kv => set (fst kv) (snd kv) acc) patch o.

Definition str_truthy (s : string) : bool := negb (s =? "").

Definition num_truthy (n : number) : bool :=
  match n with
  | NaN => false
  | Dec m _ => negb (m =? 0)%Z
  end.

(** ToBoolean *)
Definition truthy (v : value) : bool :=
  match v with
  | undefined | null => false
  | Bool b => b
  | Num n => num_truthy n
  | Str s => str_truthy s
  | Arr _ | Obj _ => true
  end.

(** [s || d] on strings *)
Definition str_or (s d : string) : string := if str_truthy s then s else d.

(** [s || null] *)
Definition str_or_null (s : string) : value := if str_truthy s then Str s else null.

(** A string is kept as the bytes of its UTF-8 encoding, one [ascii] per
    byte, so that every character a user can type or paste has a place
    in it. [utf8] is the encoding of a code point of the Basic
    Multilingual Plane: one, two or three bytes. *)
Definition utf8 (code_point : N) : string :=
  let byte n := ascii_of_N n in
  if (code_point <? 128)%N then String (byte code_point) EmptyString
  else if (code_point <? 2048)%N then
    String (byte (192 + code_point / 64)%N)
      (String (byte (128 + code_point mod 64)%N) EmptyString)
  else
    String (byte (224 + code_point / 4096)%N)
      (String (byte (128 + (code_point / 64) mod 64)%N)
         (String (byte (128 + code_point mod 64)%N) EmptyString)).

(** The characters [String.prototype.trim] strips, the WhiteSpace and
    LineTerminator productions of ECMAScript: TAB, LF, VT, FF, CR, SP,
    U+00A0 (NBSP), U+1680, U+2000 to U+200A, U+2028, U+2029, U+202F,
    U+205F, U+3000 and U+FEFF. *)
Definition white_space_code_points : list N :=
  [9; 10; 11; 12; 13; 32; 160; 5760;
   8192; 8193; 8194; 8195; 8196; 8197; 8198; 8199; 8200; 8201; 8202;
   8232; 8233; 8239; 8287; 12288; 65279]%N.

Definition white_space : list string := map utf8 white_space_code_points.

(** [s.startsWith(w)] *)
Fixpoint starts_with (s w : string) {struct w} : bool :=
  match w, s with
  | EmptyString, _ => true
  | String a w', String b s' => (a =? b)%char && starts_with s' w'
  | String _ _, EmptyString => false
  end.

(** The number of bytes of the white-space character [s] starts with,
    0 when it starts with none. *)
Definition leading_white_space (s : string) : nat :=
  match find (starts_with s) white_space with
  | Some w => String.length w
  | None => 0
  end.

(** Skips the white-space characters at the start, each by as many bytes
    as it has. *)
Fixpoint trim_start (s : string) : string :=
  match s with
  | EmptyString => EmptyString
  | String _ r1 =>
      match leading_white_space s with
      | 0 => s
      | 1 => trim_start r1
      | 2 => match r1 with
             | String _ r2 => trim_start r2
             | _ => s
             end
      | _ => match r1 with
             | String _ (String _ r3) => trim_start r3
             | _ => s
             end
      end
  end.

(** Whether [s] consists of white-space characters only (the empty
    string does). *)
Fixpoint all_white_space (s : string) : bool :=
  match s with
  | EmptyString => true
  | String _ r1 =>
      match leading_white_space s with
      | 0 => false
      | 1 => all_white_space r1
      | 2 => match r1 with
             | String _ r2 => all_white_space r2
             | _ => false
             end
      | _ => match r1 with
             | String _ (String _ r3) => all_white_space r3
             | _ => false
             end
      end
  end.

(** Drops the trailing white space: the text is kept up to the point
    from which only white space follows. *)
Fixpoint trim_end (s : string) : string :=
  match s with
  | EmptyString => EmptyString
  | String c s' => if all_white_space s then EmptyString else String c (trim_end s')
  end.

(** [s.trim()] *)
Definition trim (s : string) : string := trim_end (trim_start s).

(** [s] without its first [n] bytes. *)
Fixpoint drop (n : nat) (s : string) : string :=
  match n, s with
  | 0, _ => s
  | S n', String _ r => drop n' r
  | S _, EmptyString => EmptyString
  end.

(** [s.split(sep)] for a one-character separator. *)
Fixpoint split (sep : ascii) (s : string) : list string :=
  match s with
  | EmptyString => [EmptyString]
  | String c s' =>
      if (c =? sep)%char then EmptyString :: split sep s'
      else match split sep s' with
           | [] => [String c EmptyString]
           | w :: ws => String c w :: ws
           end
  end.

(** Decimal rendering of a non-negative integer inside a template literal. *)
Definition decimal (n : N) : string := NilZero.string_of_uint (N.to_uint n).

(** Thrown values and the [error] member of a store response: the
    [message] every handler reads, and the optional [code] of a
    PostgREST error. *)
Record exn : Type := { message : string; code : option string }.

(** [new Error(msg)] *)
Definition Error (msg : string) : exn := {| message := msg; code := None |}.

(** Built-ins whose result the handlers pass on without inspecting it.
    [JSON_parse] either yields a value or throws. *)
Class Builtins : Type := {
  JSON_parse : string -> value + exn;
  parseFloat : string -> number;
  parseInt : string -> number
}.

(** Whether [JSON.parse(text)] returns. *)
Definition parses {builtins : Builtins} (text : string) : bool :=
  match JSON_parse text with
  | inl _ => true
  | inr _ => false
  end.

End JS.

(* ================================================================== *)
(** ** The row store *)
(* ================================================================== *)

(** Modelled from the spec: the hosted row store behind
    [@/integrations/supabase/client] (section 6: [select] with nested
    relation expansion, equality filters and ordering; [insert];
    [update]). A table is the list of its rows; rows are JS objects. *)
Module Store.
Import JS.

(** The tables the portals name in [supabase.from(...)]. *)
Inductive table : Type :=
| profiles | herbs | collectors | collection_events | batches
| quality_tests | processing_steps | products | compliance_rules.

Definition table_eqb (a b : table) : bool :=
  match a, b with
  | profiles, profiles | herbs, herbs | collectors, collectors
  | collection_events, collection_events | batches, batches
  | quality_tests, quality_tests | processing_steps, processing_steps
  | products, products | compliance_rules, compliance_rules => true
  | _, _ => false
  end.

Definition database : Type := table -> list row.

(** Filters of a query: [.eq(column, v)] and [.in(column, vs)]. Cells are
    compared as strings; a filter value that is not a string (the
    [undefined] of a missing [profile?.id]) matches no row. *)
Inductive filter : Type :=
| eq_filter (column : string) (v : value)
| in_filter (column : string) (vs : list string).

(** A nested relation [alias:fk_column (columns, nested...)] of a select;
    [columns = None] stands for [*]. *)
Inductive relation : Type :=
| Rel (alias fk_column : string) (target : table)
      (columns : option (list string)) (nested : list relation).

Record query : Type := {
  from : table;
  relations : list relation;
  filters : list filter;
  order : option (string * bool)      (* column, ascending *)
}.

Inductive call : Type :=
| select (q : query) (single : bool)
| insert (t : table) (rows : list row) (returning : bool)
| update (t : table) (patch : row) (where_ : list filter).

Definition cell_is (c : value) (s : string) : bool :=
  match c with
  | Str s' => s' =? s
  | _ => false
  end.

Definition same_cell (a b : value) : bool :=
  match b with
  | Str s => cell_is a s
  | _ => false
  end.

Definition matches (f : filter) (r : row) : bool :=
  match f with
  | eq_filter col v => same_cell (get col r) v
  | in_filter col vs => existsb (cell_is (get col r)) vs
  end.

Definition matches_all (fs : list filter) (r : row) : bool :=
  forallb (fun f => matches f r) fs.

(** Ordering by one column, cells compared as strings (timestamps and
    names are stored as text of one format). Stable insertion sort. *)
Definition sort_key (col : string) (r : row) : string :=
  match get col r with
  | Str s => s
  | _ => ""
  end.

Definition goes_before (ascending : bool) (a b : string) : bool :=
  if ascending then String.leb a b else String.leb b a.

Fixpoint place (col : string) (ascending : bool) (r : row) (l : list row) : list row :=
  match l with
  | [] => [r]
  | x :: l' =>
      if goes_before ascending (sort_key col r) (sort_key col x)
      then r :: l
      else x :: place col ascending r l'
  end.

Definition order_by (o : option (string * bool)) (l : list row) : list row :=
  match o with
  | None => l
  | Some (col, ascending) => fold_right (place col ascending) [] l
  end.

Definition alias_of (rel : relation) : string :=
  match rel with
  | Rel a _ _ _ _ => a
  end.

Definition project (columns : option (list string)) (r : row) : row :=
  match columns with
  | None => r
  | Some cols => List.filter (fun kv => existsb (String.eqb (fst kv)) cols) r
  end.

(** Nested relation expansion: the row referenced through [fk_column]
    (by its [id]) is attached under [alias], [null] when there is none;
    of the referenced row the listed columns and its own nested relations
    are kept. *)
Fixpoint expand (db : database) (rel : relation) (r : row) : row :=
  match rel with
  | Rel a fk t cols nested =>
      let linked :=
        match List.find (fun x => same_cell (get "id" x) (get fk r)) (db t) with
        | Some x =>
            Obj (project (option_map (fun cs => cs ++ map alias_of nested) cols)
                         (fold_right (fun n acc => expand db n acc) x nested))
        | None => null
        end in
      set a linked r
  end.

Definition expand_all (db : database) (rels : list relation) (r : row) : row :=
  fold_right (expand db) r rels.

(** The rows a select returns. *)
Definition run_select (db : database) (q : query) : list row :=
  map (expand_all db (relations q))
      (order_by (order q) (List.filter (matches_all (filters q)) (db (from q)))).

(** [insert]: the stored rows join the table. *)
Definition run_insert (db : database) (t : table) (stored : list row) : database :=
  fun t' => if table_eqb t' t then db t' ++ stored else db t'.

(** [update]: the patch is assigned to every row the filters select. *)
Definition run_update (db : database) (t : table) (patch : row)
           (where_ : list filter) : database :=
  fun t' =>
    if table_eqb t' t
    then map (fun r => if matches_all where_ r then assign r patch else r) (db t')
    else db t'.

(** A store response [{ data, error }]. *)
Record response (A : Type) : Type := { data : option A; error : option exn }.
Arguments data {A} _.
Arguments error {A} _.

(** The error of [.single()] when the result is not exactly one row. *)
Definition PGRST116 : exn :=
  {| message := "JSON object requested, multiple (or no) rows returned";
     code := Some "PGRST116" |}.

End Store.

(* ================================================================== *)
(** ** Toasts, effects and the handler monad *)
(* ================================================================== *)

Module UI.
Import JS.

Inductive variant : Type := default | destructive.

(** The argument of [toast({ title, description, variant })]. *)
Record Toast : Type := {
  title : string;
  description : string;
  variant_ : variant
}.

(** What a handler does besides updating the component state. An
    un-awaited call of another async handler ([fetchData()] at the end of
    a successful action) is recorded as [spawn]: it runs as an action of
    its own once the handler has returned. *)
Inductive effect : Type :=
| toast (t : Toast)
| console_error (label : string) (e : exn)
| store_call (c : Store.call)
| foreign_call (name : string) (args : list value)
| spawn (handler : string).

(** A request to the store or to the auth provider. *)
Definition is_request (e : effect) : bool :=
  match e with
  | store_call _ | foreign_call _ _ => true
  | _ => false
  end.

Definition is_write (e : effect) : bool :=
  match e with
  | store_call (Store.insert _ _ _) | store_call (Store.update _ _ _) => true
  | _ => false
  end.

Definition is_toast (e : effect) : bool :=
  match e with
  | toast _ => true
  | _ => false
  end.

Definition is_failure_toast (e : effect) : bool :=
  match e with
  | toast t => match variant_ t with destructive => true | default => false end
  | _ => false
  end.

Definition is_success_toast (e : effect) : bool :=
  match e with
  | toast t => match variant_ t with default => true | destructive => false end
  | _ => false
  end.

(** A notification or console trace: nothing that reaches the store or
    the component state. *)
Definition is_notification (e : effect) : bool :=
  match e with
  | toast _ | console_error _ _ => true
  | _ => false
  end.

Inductive outcome (A : Type) : Type :=
| Done (a : A)
| Thrown (e : exn).
Arguments Done {A} _.
Arguments Thrown {A} _.

Section Monad.
(** [S] is the state of one component (its [useState] cells). *)
Context {S : Type}.

Record world : Type := {
  ui : S;
  db : Store.database;
  log : list effect
}.

Definition M (A : Type) : Type := world -> outcome A * world.

Definition ret {A} (a : A) : M A := fun w => (Done a, w).

Definition bind {A B} (m : M A) (k : A -> M B) : M B :=
  fun w =>
    match m w with
    | (Done a, w') => k a w'
    | (Thrown e, w') => (Thrown e, w')
    end.

Definition throw {A} (e : exn) : M A := fun w => (Thrown e, w).

(** [try { body } catch (e) { handler e }] *)
Definition try_catch {A} (body : M A) (handler : exn -> M A) : M A :=
  fun w =>
    match body w with
    | (Thrown e, w') => handler e w'
    | r => r
    end.

(** [try { body } finally { fin }] *)
Definition finally {A} (body : M A) (fin : M unit) : M A :=
  fun w =>
    match body w with
    | (r, w') =>
        match fin w' with
        | (Done _, w'') => (r, w'')
        | (Thrown e, w'') => (Thrown e, w'')
        end
    end.

Definition emit (e : effect) : M unit :=
  fun w => (Done tt, {| ui := ui w; db := db w; log := log w ++ [e] |}).

(** A [setX(...)] call. *)
Definition modify (f : S -> S) : M unit :=
  fun w => (Done tt, {| ui := f (ui w); db := db w; log := log w |}).

(** [if (error) throw error] *)
Definition throw_if (e : option exn) : M unit :=
  match e with
  | Some x => throw x
  | None => ret tt
  end.

(** The store client. Whether the store rejects a call is not the
    portal's doing: every call takes the rejection (if any) as an
    argument. *)
Definition select (q : Store.query) (rejected : option exn)
  : M (Store.response (list row)) :=
  fun w =>
    let w' := {| ui := ui w; db := db w;
                 log := log w ++ [store_call (Store.select q false)] |} in
    match rejected with
    | Some e => (Done {| Store.data := None; Store.error := Some e |}, w')
    | None =>
        (Done {| Store.data := Some (Store.run_select (db w) q);
                 Store.error := None |}, w')
    end.

(** [select(...).single()] *)
Definition select_single (q : Store.query) (rejected : option exn)
  : M (Store.response row) :=
  fun w =>
    let w' := {| ui := ui w; db := db w;
                 log := log w ++ [store_call (Store.select q true)] |} in
    match rejected with
    | Some e => (Done {| Store.data := None; Store.error := Some e |}, w')
    | None =>
        match Store.run_select (db w) q with
        | [r] => (Done {| Store.data := Some r; Store.error := None |}, w')
        | _ => (Done {| Store.data := None;
                        Store.error := Some Store.PGRST116 |}, w')
        end
    end.

(** [insert(rows)]; [stored] is what the store made of the rows (its own
    columns added) when it accepted them. *)
Definition insert (t : Store.table) (rows : list row) (returning : bool)
           (result : exn + list row) : M (Store.response (list row)) :=
  fun w =>
    let l := log w ++ [store_call (Store.insert t rows returning)] in
    match result with
    | inl e =>
        (Done {| Store.data := None; Store.error := Some e |},
         {| ui := ui w; db := db w; log := l |})
    | inr stored =>
        (Done {| Store.data := if returning then Some stored else None;
                 Store.error := None |},
         {| ui := ui w; db := Store.run_insert (db w) t stored; log := l |})
    end.

(** [update(patch).eq(...)] *)
Definition update (t : Store.table) (patch : row) (where_ : list Store.filter)
           (rejected : option exn) : M (Store.response unit) :=
  fun w =>
    let l := log w ++ [store_call (Store.update t patch where_)] in
    match rejected with
    | Some e =>
        (Done {| Store.data := None; Store.error := Some e |},
         {| ui := ui w; db := db w; log := l |})
    | None =>
        (Done {| Store.data := None; Store.error := None |},
         {| ui := ui w; db := Store.run_update (db w) t patch where_; log := l |})
    end.

(** Running a handler as one event: the world it leaves behind. All
    handlers catch what they throw; a stray exception would leave the
    world as it was when thrown. *)
Definition run (h : M unit) (w : world) : world := snd (h w).

(** The effects a handler adds to the log of a world. *)
Definition effects (h : M unit) (s : S) (d : Store.database) : list effect :=
  log (run h {| ui := s; db := d; log := [] |}).

Definition state_after (h : M unit) (s : S) (d : Store.database) : S :=
  ui (run h {| ui := s; db := d; log := [] |}).

Definition db_after (h : M unit) (s : S) (d : Store.database) : Store.database :=
  db (run h {| ui := s; db := d; log := [] |}).

End Monad.

Arguments world : clear implicits.
Arguments M : clear implicits.

Declare Scope handler_scope.
Delimit Scope handler_scope with handler.
Notation "x <- m ;; k" := (bind m (fun x => k))
  (at level 61, m at next level, right associativity) : handler_scope.
Notation "m ;; k" := (bind m (fun _ => k))
  (at level 61, right associativity) : handler_scope.

End UI.

(* ================================================================== *)
(** ** The QR token codec (spec 4.1) *)
(* ================================================================== *)

Module QR.

(** The QR payload shape of section 6. *)
Record payload : Type := {
  type_ : string;
  productId : string;
  batchIds : list string
}.

Definition dquote : ascii := Ascii false true false false false true false false.
Definition backslash : ascii := "\"%char.

Definition needs_escape (c : ascii) : bool :=
  (c =? dquote)%char || (c =? backslash)%char.

(** The writers take the text that follows as an argument. *)
Fixpoint write_chars (s : string) (k : string) : string :=
  match s with
  | EmptyString => k
  | String c r =>
      if needs_escape c
      then String backslash (String c (write_chars r k))
      else String c (write_chars r k)
  end.

Definition write_string (s : string) (k : string) : string :=
  String dquote (write_chars s (String dquote k)).

Fixpoint write_items (l : list string) (k : string) : string :=
  match l with
  | [] => k
  | [x] => write_string x k
  | x :: l' => write_string x (String "," (write_items l' k))
  end.

Definition write_array (l : list string) (k : string) : string :=
  String "[" (write_items l (String "]" k)).

Definition write_key (name : string) (k : string) : string :=
  String dquote (name ++ String dquote (String ":" k)).

(** Modelled from the spec: [generateQRCode] of src/utils/blockchain, the
    [encode] of section 4.1 ("deterministic, reversible encoding of a
    small structured payload ... into a single opaque string"). The spec
    does not fix the text of a token; it is taken to be the JSON text of
    the payload, members in the order [type], [productId], [batchIds],
    with the double quote and the backslash escaped inside strings. *)
Definition encode (p : payload) : string :=
  String "{"
    (write_key "type" (write_string (type_ p)
    (String "," (write_key "productId" (write_string (productId p)
    (String "," (write_key "batchIds" (write_array (batchIds p)
    (String "}" EmptyString))))))))).

(** Readers return what they read and the text left. *)
Fixpoint expect (lit : string) (s : string) : option string :=
  match lit, s with
  | EmptyString, _ => Some s
  | String a lit', String b s' => if (a =? b)%char then expect lit' s' else None
  | String _ _, EmptyString => None
  end.

Fixpoint read_chars (s : string) : option (string * string) :=
  match s with
  | EmptyString => None
  | String c r =>
      if (c =? dquote)%char then Some (EmptyString, r)
      else if (c =? backslash)%char then
        match r with
        | String d r' =>
            if needs_escape d
            then match read_chars r' with
                 | Some (x, rest) => Some (String d x, rest)
                 | None => None
                 end
            else None
        | EmptyString => None
        end
      else match read_chars r with
           | Some (x, rest) => Some (String c x, rest)
           | None => None
           end
  end.

Definition read_string (s : string) : option (string * string) :=
  match s with
  | String c r => if (c =? dquote)%char then read_chars r else None
  | EmptyString => None
  end.

(** The items of a non-empty array up to and including the closing
    bracket. Every item takes at least two characters, so the length of
    the text is fuel enough. *)
Fixpoint read_items (fuel : nat) (s : string) : option (list string * string) :=
  match fuel with
  | O => None
  | S fuel' =>
      match read_string s with
      | Some (x, String c r) =>
          if (c =? ",")%char then
            match read_items fuel' r with
            | Some (xs, rest) => Some (x :: xs, rest)
            | None => None
            end
          else if (c =? "]")%char then Some ([x], r)
          else None
      | _ => None
      end
  end.

Definition read_array (s : string) : option (list string * string) :=
  match s with
  | String "[" (String "]" r) => Some ([], r)
  | String "[" r => read_items (String.length r) r
  | _ => None
  end.

Definition read_key (name : string) (s : string) : option string :=
  expect (write_key name EmptyString) s.

Inductive decoded : Type :=
| Payload (p : payload)
| MalformedToken.

Definition parse (token : string) : option payload :=
  match expect "{" token with None => None | Some s =>
  match read_key "type" s with None => None | Some s =>
  match read_string s with None => None | Some (t, s) =>
  match expect "," s with None => None | Some s =>
  match read_key "productId" s with None => None | Some s =>
  match read_string s with None => None | Some (p, s) =>
  match expect "," s with None => None | Some s =>
  match read_key "batchIds" s with None => None | Some s =>
  match read_array s with None => None | Some (b, s) =>
  match s with
  | String "}" EmptyString => Some {| type_ := t; productId := p; batchIds := b |}
  | _ => None
  end end end end end end end end end end.

(** Modelled from the spec: [decode] of section 4.1, "inverse of encode;
    fails with a MalformedToken kind if the token does not match the
    expected structure". *)
Definition decode (token : string) : decoded :=
  match parse token with
  | Some p => Payload p
  | None => MalformedToken
  end.

End QR.

(* ================================================================== *)
(** ** The traceability aggregator (spec 4.2) *)
(* ================================================================== *)

Module Aggregator.
Import JS UI.
Local Open Scope handler_scope.

(** [interface TraceabilityData] of ConsumerPortal.tsx: every member is
    optional. *)
Record TraceabilityData : Type := {
  product : option row;
  batches : option (list row);
  collections : option (list row);
  qualityTests : option (list row);
  processingSteps : option (list row)
}.

(** What [getQRCodeData] resolves to: the members of the trace and an
    optional [error] member. *)
Record QRCodeData : Type := {
  error : option string;
  trace : TraceabilityData
}.

Definition no_trace : TraceabilityData :=
  {| product := None; batches := None; collections := None;
     qualityTests := None; processingSteps := None |}.

(** Modelled from the spec: the [NotFound] answer of [resolve]. The spec
    names the kind, not the text, of the error member; the kind name
    stands for it. *)
Definition NotFound : QRCodeData :=
  {| error := Some "NotFound"; trace := no_trace |}.

Definition Found (t : TraceabilityData) : QRCodeData :=
  {| error := None; trace := t |}.

(** Modelled from the spec: the generic fetch error of the failure
    policy of section 4.2. *)
Definition FetchError : exn := Error "Failed to fetch traceability data".

(** The string cells of a column. *)
Definition str_cells (col : string) (rows : list row) : list string :=
  flat_map (fun r => match get col r with Str s => [s] | _ => [] end) rows.

(** The strings of an array cell ([batch_ids]). *)
Definition strings_of (v : value) : list string :=
  match v with
  | Arr items => flat_map (fun x => match x with Str s => [s] | _ => [] end) items
  | _ => []
  end.

(** The entries of an array cell ([batch_ids]). *)
Definition items_of (v : value) : list value :=
  match v with
  | Arr items => items
  | _ => []
  end.

(** Modelled from the spec: the Batch rows "from the Product's
    [batch_ids]" (step 3 of section 4.2), one for each entry of
    [batch_ids] in turn: the row read whose id is the entry, and nothing
    for an entry that names no row. Section 8 measures the result against
    the length of [batch_ids]. *)
Definition rows_named (entries : list value) (rows : list row) : list row :=
  flat_map (fun entry =>
              match List.find (fun r => Store.same_cell (get "id" r) entry) rows with
              | Some r => [r]
              | None => []
              end) entries.

(** Modelled from the spec: the five reads of [resolve], steps 2 to 6 of
    section 4.2, with the relations the Consumer page displays
    ([product.manufacturer], [batch.herb], [batch.aggregator],
    [collection.collector.profile], [collection.herb], [test.lab],
    [step.processor]). *)
Definition product_query (token : string) : Store.query :=
  {| Store.from := Store.products;
     Store.relations := [Store.Rel "manufacturer" "manufacturer_id" Store.profiles None []];
     Store.filters := [Store.eq_filter "qr_code" (Str token)];
     Store.order := None |}.

Definition batches_query (batch_ids : list string) : Store.query :=
  {| Store.from := Store.batches;
     Store.relations := [Store.Rel "herb" "herb_id" Store.herbs None [];
                         Store.Rel "aggregator" "aggregator_id" Store.profiles None []];
     Store.filters := [Store.in_filter "id" batch_ids];
     Store.order := None |}.

(** Modelled from the spec: step 4. The spec leaves the columns of the
    "herb/aggregator linkage" open; the herb of the resolved batches is
    the link both tables have. *)
Definition collections_query (resolved : list row) : Store.query :=
  {| Store.from := Store.collection_events;
     Store.relations :=
       [Store.Rel "collector" "collector_id" Store.collectors None
                  [Store.Rel "profile" "profile_id" Store.profiles None []];
        Store.Rel "herb" "herb_id" Store.herbs None []];
     Store.filters := [Store.in_filter "herb_id" (str_cells "herb_id" resolved)];
     Store.order := None |}.

Definition quality_tests_query (resolved : list row) : Store.query :=
  {| Store.from := Store.quality_tests;
     Store.relations := [Store.Rel "lab" "lab_id" Store.profiles None []];
     Store.filters := [Store.in_filter "batch_id" (str_cells "id" resolved)];
     Store.order := None |}.

Definition processing_steps_query (resolved : list row) : Store.query :=
  {| Store.from := Store.processing_steps;
     Store.relations := [Store.Rel "processor" "processor_id" Store.profiles None []];
     Store.filters := [Store.in_filter "batch_id" (str_cells "id" resolved)];
     Store.order := None |}.

Section Resolve.
Context {S : Type}.

(** Modelled from the spec: one read of the fan-out; a rejected read
    aborts the resolution with the generic fetch error. *)
Definition read (q : Store.query) (rejected : Store.table -> option exn)
  : M S (list row) :=
  r <- select q (rejected (Store.from q)) ;;
  match Store.error r with
  | Some _ => throw FetchError
  | None => ret (match Store.data r with Some rows => rows | None => [] end)
  end.

(** Modelled from the spec: [getQRCodeData] of src/utils/blockchain, the
    [resolve(token)] of section 4.2, steps 1 to 7: decode the token
    ([NotFound] when malformed), look the Product up by its stored QR
    value ([NotFound] when absent), read the batches named by its
    [batch_ids] and take them entry by entry, then read the collection
    events, quality tests and processing steps keyed off the resolved
    batches, and compose the trace. A failed read aborts the whole
    resolution. *)
Definition getQRCodeData (token : string) (rejected : Store.table -> option exn)
  : M S QRCodeData :=
  match QR.decode token with
  | QR.MalformedToken => ret NotFound
  | QR.Payload _ =>
      found <- read (product_query token) rejected ;;
      match found with
      | [] => ret NotFound
      | p :: _ =>
          rows <- read (batches_query (strings_of (get "batch_ids" p))) rejected ;;
          let bs := rows_named (items_of (get "batch_ids" p)) rows in
          cs <- read (collections_query bs) rejected ;;
          qs <- read (quality_tests_query bs) rejected ;;
          ps <- read (processing_steps_query bs) rejected ;;
          ret (Found {| product := Some p;
                        batches := Some bs;
                        collections := Some cs;
                        qualityTests := Some qs;
                        processingSteps := Some ps |})
      end
  end.

End Resolve.

(** [resolve]: the result of [getQRCodeData] on a store, or the fetch
    error it throws. *)
Definition resolve (d : Store.database) (rejected : Store.table -> option exn)
           (token : string) : outcome QRCodeData :=
  fst (getQRCodeData (S := unit) token rejected {| ui := tt; db := d; log := [] |}).

End Aggregator.

(* ================================================================== *)
(** ** ConsumerPortal.tsx *)
(* ================================================================== *)

Module Consumer.
Import JS UI.
Local Open Scope handler_scope.

(** The [useState] cells of the component. *)
Record State : Type := {
  qrCode : string;
  traceData : option Aggregator.TraceabilityData;
  loading : bool;
  error : string
}.

Definition initial : State :=
  {| qrCode := ""; traceData := None; loading := false; error := "" |}.

Definition setQrCode (v : string) : M State unit :=
  modify (fun s => {| qrCode := v; traceData := traceData s;
                      loading := loading s; error := error s |}).

Definition setTraceData (v : option Aggregator.TraceabilityData) : M State unit :=
  modify (fun s => {| qrCode := qrCode s; traceData := v;
                      loading := loading s; error := error s |}).

Definition setLoading (v : bool) : M State unit :=
  modify (fun s => {| qrCode := qrCode s; traceData := traceData s;
                      loading := v; error := error s |}).

Definition setError (v : string) : M State unit :=
  modify (fun s => {| qrCode := qrCode s; traceData := traceData s;
                      loading := loading s; error := v |}).

Definition missing_toast : Toast :=
  {| title := "Missing QR Code";
     description := "Please enter a QR code to scan.";
     variant_ := destructive |}.

Definition not_found_toast : Toast :=
  {| title := "QR Code not found";
     description := "This QR code is not registered in our system.";
     variant_ := destructive |}.

Definition success_toast : Toast :=
  {| title := "QR Code scanned successfully!";
     description := "Full traceability information loaded.";
     variant_ := default |}.

Definition scan_error_toast (msg : string) : Toast :=
  {| title := "Error scanning QR code";
     description := msg;
     variant_ := destructive |}.

(** [const scanQRCode = async () => ...]; [st] is the state the closure
    was created with. *)
Definition scanQRCode (rejected : Store.table -> option exn) (st : State)
  : M State unit :=
  if negb (str_truthy (trim (qrCode st))) then
    emit (toast missing_toast)
  else
    setLoading true ;;
    setError "" ;;
    setTraceData None ;;
    finally
      (try_catch
         (data <- Aggregator.getQRCodeData (trim (qrCode st)) rejected ;;
          let loaded :=
            setTraceData (Some (Aggregator.trace data)) ;;
            emit (toast success_toast) in
          match Aggregator.error data with
          | Some e =>
              if str_truthy e then
                setError e ;;
                emit (toast not_found_toast)
              else loaded
          | None => loaded
          end)
         (fun err =>
            setError (message err) ;;
            emit (toast (scan_error_toast (message err)))))
      (setLoading false).

(** The scan button and the Enter key: the handler runs on the current
    state. *)
Definition scan (rejected : Store.table -> option exn) (w : world State)
  : world State :=
  run (scanQRCode rejected (ui w)) w.

End Consumer.

(* ================================================================== *)
(** ** FactoryPortal.tsx *)
(* ================================================================== *)

Module Factory.
Import JS UI.
Local Open Scope handler_scope.

Record ProcessForm : Type := {
  process_type : string;
  input_quantity_kg : string;
  process_parameters : string;
  process_conditions : string
}.

Record ProductForm : Type := {
  product_name : string;
  product_type : string;
  final_quantity : string;
  unit_type : string;
  formulation_details : string
}.

Definition empty_process_form : ProcessForm :=
  {| process_type := ""; input_quantity_kg := "";
     process_parameters := ""; process_conditions := "" |}.

Definition empty_product_form : ProductForm :=
  {| product_name := ""; product_type := ""; final_quantity := "";
     unit_type := ""; formulation_details := "" |}.

(** The [useState] cells of the component; batches and processing steps
    are the rows the store returned. *)
Record State : Type := {
  availableBatches : list row;
  processingSteps : list row;
  selectedBatch : option row;
  processForm : ProcessForm;
  productForm : ProductForm;
  showProductForm : bool;
  loading : bool
}.

Definition initial : State :=
  {| availableBatches := []; processingSteps := []; selectedBatch := None;
     processForm := empty_process_form; productForm := empty_product_form;
     showProductForm := false; loading := true |}.

Definition setAvailableBatches (v : list row) : M State unit :=
  modify (fun s =>
    {| availableBatches := v; processingSteps := processingSteps s;
       selectedBatch := selectedBatch s; processForm := processForm s;
       productForm := productForm s; showProductForm := showProductForm s;
       loading := loading s |}).

Definition setProcessingSteps (v : list row) : M State unit :=
  modify (fun s =>
    {| availableBatches := availableBatches s; processingSteps := v;
       selectedBatch := selectedBatch s; processForm := processForm s;
       productForm := productForm s; showProductForm := showProductForm s;
       loading := loading s |}).

Definition setSelectedBatch (v : option row) : M State unit :=
  modify (fun s =>
    {| availableBatches := availableBatches s; processingSteps := processingSteps s;
       selectedBatch := v; processForm := processForm s;
       productForm := productForm s; showProductForm := showProductForm s;
       loading := loading s |}).

Definition setProcessForm (v : ProcessForm) : M State unit :=
  modify (fun s =>
    {| availableBatches := availableBatches s; processingSteps := processingSteps s;
       selectedBatch := selectedBatch s; processForm := v;
       productForm := productForm s; showProductForm := showProductForm s;
       loading := loading s |}).

Definition setProductForm (v : ProductForm) : M State unit :=
  modify (fun s =>
    {| availableBatches := availableBatches s; processingSteps := processingSteps s;
       selectedBatch := selectedBatch s; processForm := processForm s;
       productForm := v; showProductForm := showProductForm s;
       loading := loading s |}).

Definition setShowProductForm (v : bool) : M State unit :=
  modify (fun s =>
    {| availableBatches := availableBatches s; processingSteps := processingSteps s;
       selectedBatch := selectedBatch s; processForm := processForm s;
       productForm := productForm s; showProductForm := v;
       loading := loading s |}).

Definition setLoading (v : bool) : M State unit :=
  modify (fun s =>
    {| availableBatches := availableBatches s; processingSteps := processingSteps s;
       selectedBatch := selectedBatch s; processForm := processForm s;
       productForm := productForm s; showProductForm := showProductForm s;
       loading := v |}).

Definition herb_names : Store.relation :=
  Store.Rel "herbs" "herb_id" Store.herbs (Some ["botanical_name"; "local_name"]) [].

Definition fetch_failed_toast : Toast :=
  {| title := "Error"; description := "Failed to fetch data"; variant_ := destructive |}.

Definition required_toast : Toast :=
  {| title := "Error"; description := "Please fill all required fields";
     variant_ := destructive |}.

Definition step_created_toast : Toast :=
  {| title := "Success"; description := "Processing step created successfully";
     variant_ := default |}.

Definition step_failed_toast : Toast :=
  {| title := "Error"; description := "Failed to create processing step";
     variant_ := destructive |}.

Definition product_created_toast : Toast :=
  {| title := "Success"; description := "Product created successfully with QR code";
     variant_ := default |}.

Definition product_failed_toast : Toast :=
  {| title := "Error"; description := "Failed to create product";
     variant_ := destructive |}.

(** Available batches (approved by lab). *)
Definition approved_batches_query : Store.query :=
  {| Store.from := Store.batches;
     Store.relations := [herb_names];
     Store.filters := [Store.eq_filter "batch_status" (Str "approved")];
     Store.order := Some ("creation_timestamp", false) |}.

Section Handlers.
(** [profile] is the profile of [useAuth()]; [generateQRCode] is imported
    from src/utils/blockchain, which is not among the sources, and is
    taken as it comes. *)
Context {builtins : Builtins}.
Variable generateQRCode : value -> string.
Variable profile : option row.

Definition parse_json (text : string) : M State value :=
  match JSON_parse text with
  | inl v => ret v
  | inr e => throw e
  end.

Definition own_steps_query : Store.query :=
  {| Store.from := Store.processing_steps;
     Store.relations :=
       [Store.Rel "batches" "batch_id" Store.batches (Some ["batch_id"]) [herb_names]];
     Store.filters := [Store.eq_filter "processor_id" (opt_get "id" profile)];
     Store.order := Some ("process_date", false) |}.

(** [const fetchData = async () => ...] *)
Definition fetchData (batches_rejected steps_rejected : option exn) : M State unit :=
  finally
    (try_catch
       (bs <- select approved_batches_query batches_rejected ;;
        throw_if (Store.error bs) ;;
        steps <- select own_steps_query steps_rejected ;;
        throw_if (Store.error steps) ;;
        setAvailableBatches (match Store.data bs with Some l => l | None => [] end) ;;
        setProcessingSteps (match Store.data steps with Some l => l | None => [] end))
       (fun error =>
          emit (console_error "Error fetching data:" error) ;;
          emit (toast fetch_failed_toast)))
    (setLoading false).

(** [const createProcessingStep = async () => ...] *)
Definition createProcessingStep (result : exn + list row) (st : State) : M State unit :=
  match selectedBatch st with
  | Some batch =>
      if negb (str_truthy (process_type (processForm st)))
         || negb (str_truthy (input_quantity_kg (processForm st)))
      then emit (toast required_toast)
      else
        try_catch
          (params <- parse_json (str_or (process_parameters (processForm st)) "{}") ;;
           conds <- parse_json (str_or (process_conditions (processForm st)) "{}") ;;
           r <- insert Store.processing_steps
                  [[("batch_id", get "id" batch);
                    ("processor_id", opt_get "id" profile);
                    ("process_type", Str (process_type (processForm st)));
                    ("input_quantity_kg",
                     Num (parseFloat (input_quantity_kg (processForm st))));
                    ("process_parameters", params);
                    ("process_conditions", conds)]]
                  false result ;;
           throw_if (Store.error r) ;;
           emit (toast step_created_toast) ;;
           setProcessForm empty_process_form ;;
           setSelectedBatch None ;;
           emit (spawn "fetchData"))
          (fun error =>
             emit (console_error "Error creating processing step:" error) ;;
             emit (toast step_failed_toast))
  | None => emit (toast required_toast)
  end.

(** Batch IDs from completed processing steps. *)
Definition completed_batch_ids (steps : list row) : list value :=
  map (get "batch_id")
      (List.filter (fun step => truthy (get "completion_date" step)) steps).

Definition product_row (now : N) (details : value) (st : State) : row :=
  let batchIds := completed_batch_ids (processingSteps st) in
  let qrCode :=
    generateQRCode (Obj [("type", Str "product");
                         ("productId", Str ("PROD_" ++ decimal now));
                         ("batchIds", Arr batchIds)]) in
  [("manufacturer_id", opt_get "id" profile);
   ("product_name", Str (product_name (productForm st)));
   ("product_type", Str (product_type (productForm st)));
   ("final_quantity", Num (parseInt (final_quantity (productForm st))));
   ("unit_type", Str (unit_type (productForm st)));
   ("formulation_details", details);
   ("batch_ids", Arr batchIds);
   ("qr_code", Str qrCode)].

(** [const createProduct = async () => ...]; [now] is [Date.now()]. *)
Definition createProduct (now : N) (result : exn + list row) (st : State)
  : M State unit :=
  if negb (str_truthy (product_name (productForm st)))
     || negb (str_truthy (final_quantity (productForm st)))
  then emit (toast required_toast)
  else
    try_catch
      (details <- parse_json (str_or (formulation_details (productForm st)) "{}") ;;
       r <- insert Store.products [product_row now details st] false result ;;
       throw_if (Store.error r) ;;
       emit (toast product_created_toast) ;;
       setProductForm empty_product_form ;;
       setShowProductForm false)
      (fun error =>
         emit (console_error "Error creating product:" error) ;;
         emit (toast product_failed_toast)).

(** What can happen to the mounted component: its handlers, the inline
    [onClick]/[onChange] setters, and other actors changing the store. *)
Inductive event : Type :=
| FetchData (batches_rejected steps_rejected : option exn)
| ClickBatch (index : nat)
| CancelProcessing
| ChangeProcessForm (f : ProcessForm)
| ChangeProductForm (f : ProductForm)
| ShowProductForm (shown : bool)
| CreateProcessingStep (result : exn + list row)
| CreateProduct (now : N) (result : exn + list row)
| StoreChanged (d : Store.database).

Definition handle (e : event) (w : world State) : world State :=
  match e with
  | FetchData r1 r2 => run (fetchData r1 r2) w
  | ClickBatch i =>
      match nth_error (availableBatches (ui w)) i with
      | Some batch => run (setSelectedBatch (Some batch)) w
      | None => w
      end
  | CancelProcessing => run (setSelectedBatch None) w
  | ChangeProcessForm f => run (setProcessForm f) w
  | ChangeProductForm f => run (setProductForm f) w
  | ShowProductForm b => run (setShowProductForm b) w
  | CreateProcessingStep r => run (createProcessingStep r (ui w)) w
  | CreateProduct now r => run (createProduct now r (ui w)) w
  | StoreChanged d => {| ui := ui w; db := d; log := log w |}
  end.

Definition mounted (d : Store.database) : world State :=
  {| ui := initial; db := d; log := [] |}.

Definition after (events : list event) (d : Store.database) : world State :=
  fold_left (fun w e => handle e w) events (mounted d).

(** The rows an answered [fetchData] of the session received for the
    query [q]: what the store held for it when that fetch ran. *)
Definition fetched (q : Store.query) (events : list event) (d : Store.database)
           (l : list row) : Prop :=
  exists earlier later,
    events = earlier ++ FetchData None None :: later
    /\ l = Store.run_select (db (after earlier d)) q.

End Handlers.

(** What a session of the portal keeps true, for [listed] the lists of
    approved batches and [loaded] the lists of steps the store has
    answered a fetch with so far: the two lists on display are such
    answers (or still empty), the batch under processing was taken from
    a list of batches, and every insert sent so far was built from
    them. *)
Definition step_sent (listed : list row -> Prop) (profile : option row)
           (rows : list row) : Prop :=
  exists l batch step,
    listed l /\ In batch l
    /\ rows = [step] /\ get "batch_id" step = get "id" batch
    /\ get "processor_id" step = opt_get "id" profile
    /\ truthy (get "completion_date" step) = false.

Definition product_sent (loaded : list row -> Prop) (rows : list row) : Prop :=
  exists steps r,
    (steps = [] \/ loaded steps)
    /\ rows = [r] /\ get "batch_ids" r = Arr (completed_batch_ids steps).

Definition session_invariant (listed loaded : list row -> Prop)
           (profile : option row) (w : world State) : Prop :=
  (availableBatches (ui w) = [] \/ listed (availableBatches (ui w)))
  /\ (processingSteps (ui w) = [] \/ loaded (processingSteps (ui w)))
  /\ (forall b, selectedBatch (ui w) = Some b -> exists l, listed l /\ In b l)
  /\ (forall rows returning,
        In (store_call (Store.insert Store.processing_steps rows returning)) (log w) ->
        step_sent listed profile rows)
  /\ (forall rows returning,
        In (store_call (Store.insert Store.products rows returning)) (log w) ->
        product_sent loaded rows).

End Factory.

(* ================================================================== *)
(** ** LabPortal.tsx *)
(* ================================================================== *)

Module Lab.
Import JS UI.
Local Open Scope handler_scope.

Record TestResults : Type := {
  moisture_content : string;
  pesticide_residue : string;
  heavy_metals : string;
  microbial_count : string;
  dna_barcode : string;
  overall_grade : string;
  notes : string
}.

Definition empty_results : TestResults :=
  {| moisture_content := ""; pesticide_residue := ""; heavy_metals := "";
     microbial_count := ""; dna_barcode := ""; overall_grade := ""; notes := "" |}.

(** The [testResults] object as it is sent to the store. *)
Definition results_object (r : TestResults) : value :=
  Obj [("moisture_content", Str (moisture_content r));
       ("pesticide_residue", Str (pesticide_residue r));
       ("heavy_metals", Str (heavy_metals r));
       ("microbial_count", Str (microbial_count r));
       ("dna_barcode", Str (dna_barcode r));
       ("overall_grade", Str (overall_grade r));
       ("notes", Str (notes r))].

Record State : Type := {
  qualityTests : list row;
  selectedTest : option row;
  testResults : TestResults;
  loading : bool
}.

Definition initial : State :=
  {| qualityTests := []; selectedTest := None;
     testResults := empty_results; loading := true |}.

Definition setQualityTests (v : list row) : M State unit :=
  modify (fun s => {| qualityTests := v; selectedTest := selectedTest s;
                      testResults := testResults s; loading := loading s |}).

Definition setSelectedTest (v : option row) : M State unit :=
  modify (fun s => {| qualityTests := qualityTests s; selectedTest := v;
                      testResults := testResults s; loading := loading s |}).

Definition setTestResults (v : TestResults) : M State unit :=
  modify (fun s => {| qualityTests := qualityTests s; selectedTest := selectedTest s;
                      testResults := v; loading := loading s |}).

Definition setLoading (v : bool) : M State unit :=
  modify (fun s => {| qualityTests := qualityTests s; selectedTest := selectedTest s;
                      testResults := testResults s; loading := v |}).

Definition fetch_failed_toast : Toast :=
  {| title := "Error"; description := "Failed to fetch quality tests";
     variant_ := destructive |}.

Definition updated_toast : Toast :=
  {| title := "Success"; description := "Test results updated successfully";
     variant_ := default |}.

Definition update_failed_toast : Toast :=
  {| title := "Error"; description := "Failed to update test results";
     variant_ := destructive |}.

(** The patch of [updateTestResults]; [now] is [new Date().toISOString()]. *)
Definition results_patch (results : TestResults) (now : string) : row :=
  [("test_results", results_object results);
   ("test_status", Str "completed");
   ("completion_date", Str now)].

Section Handlers.
Variable profile : option row.

Definition own_tests_query : Store.query :=
  {| Store.from := Store.quality_tests;
     Store.relations :=
       [Store.Rel "batches" "batch_id" Store.batches
                  (Some ["batch_id"; "total_quantity_kg"])
                  [Store.Rel "herbs" "herb_id" Store.herbs
                             (Some ["botanical_name"; "local_name"]) []]];
     Store.filters := [Store.eq_filter "lab_id" (opt_get "id" profile)];
     Store.order := Some ("test_date", false) |}.

(** [const fetchQualityTests = async () => ...] *)
Definition fetchQualityTests (rejected : option exn) : M State unit :=
  finally
    (try_catch
       (r <- select own_tests_query rejected ;;
        throw_if (Store.error r) ;;
        setQualityTests (match Store.data r with Some l => l | None => [] end))
       (fun error =>
          emit (console_error "Error fetching quality tests:" error) ;;
          emit (toast fetch_failed_toast)))
    (setLoading false).

(** [const updateTestResults = async () => ...] *)
Definition updateTestResults (now : string) (rejected : option exn) (st : State)
  : M State unit :=
  match selectedTest st with
  | None => ret tt
  | Some test =>
      try_catch
        (r <- update Store.quality_tests
                (results_patch (testResults st) now)
                [Store.eq_filter "id" (get "id" test)]
                rejected ;;
         throw_if (Store.error r) ;;
         emit (toast updated_toast) ;;
         emit (spawn "fetchQualityTests") ;;
         setSelectedTest None ;;
         setTestResults empty_results)
        (fun error =>
           emit (console_error "Error updating test results:" error) ;;
           emit (toast update_failed_toast))
  end.

Inductive event : Type :=
| FetchQualityTests (rejected : option exn)
| ClickTest (index : nat)
| Cancel
| ChangeResults (r : TestResults)
| UpdateTestResults (now : string) (rejected : option exn).

Definition handle (e : event) (w : world State) : world State :=
  match e with
  | FetchQualityTests rejected => run (fetchQualityTests rejected) w
  | ClickTest i =>
      match nth_error (qualityTests (ui w)) i with
      | Some test => run (setSelectedTest (Some test)) w
      | None => w
      end
  | Cancel => run (setSelectedTest None) w
  | ChangeResults r => run (setTestResults r) w
  | UpdateTestResults now rejected => run (updateTestResults now rejected (ui w)) w
  end.

Definition mounted (d : Store.database) : world State :=
  {| ui := initial; db := d; log := [] |}.

Definition after (events : list event) (d : Store.database) : world State :=
  fold_left (fun w e => handle e w) events (mounted d).

(** The tests an answered [fetchQualityTests] of the session received:
    what the store held for the lab when that fetch ran. *)
Definition fetched (events : list event) (d : Store.database) (l : list row) : Prop :=
  exists earlier later,
    events = earlier ++ FetchQualityTests None :: later
    /\ l = Store.run_select (db (after earlier d)) own_tests_query.

End Handlers.

(** What a session of the portal keeps true, for [queued] the lists of
    tests the store has answered a fetch with so far: the queue on
    display is such an answer (or still empty), the selected test was
    taken from one, and every update sent so far targets such a test by
    its id. *)
Definition update_sent (queued : list row -> Prop) (patch : row)
           (where_ : list Store.filter) : Prop :=
  exists l test results now,
    queued l /\ In test l
    /\ where_ = [Store.eq_filter "id" (get "id" test)]
    /\ patch = results_patch results now.

Definition session_invariant (queued : list row -> Prop) (w : world State) : Prop :=
  (qualityTests (ui w) = [] \/ queued (qualityTests (ui w)))
  /\ (forall test, selectedTest (ui w) = Some test -> exists l, queued l /\ In test l)
  /\ (forall t patch where_,
        In (store_call (Store.update t patch where_)) (log w) ->
        t = Store.quality_tests /\ update_sent queued patch where_).

End Lab.

(* ================================================================== *)
(** ** CollectorPortal (second component of LabPortal.tsx) *)
(* ================================================================== *)

Module Collector.
Import JS UI.
Local Open Scope handler_scope.

Record CollectionForm : Type := {
  herb_id : string;
  quantity_kg : string;
  plant_part : string;
  harvest_season : string;
  initial_condition : string;
  environmental_data : string;
  storage_conditions : string
}.

Definition empty_form : CollectionForm :=
  {| herb_id := ""; quantity_kg := ""; plant_part := ""; harvest_season := "";
     initial_condition := ""; environmental_data := ""; storage_conditions := "" |}.

Record Location : Type := { lat : number; lng : number }.

Record State : Type := {
  herbs : list row;
  collectionEvents : list row;
  collector : option row;
  location : option Location;
  showCollectionForm : bool;
  collectionForm : CollectionForm;
  loading : bool
}.

Definition initial : State :=
  {| herbs := []; collectionEvents := []; collector := None; location := None;
     showCollectionForm := false; collectionForm := empty_form; loading := true |}.

Definition setHerbs (v : list row) : M State unit :=
  modify (fun s =>
    {| herbs := v; collectionEvents := collectionEvents s; collector := collector s;
       location := location s; showCollectionForm := showCollectionForm s;
       collectionForm := collectionForm s; loading := loading s |}).

Definition setCollectionEvents (v : list row) : M State unit :=
  modify (fun s =>
    {| herbs := herbs s; collectionEvents := v; collector := collector s;
       location := location s; showCollectionForm := showCollectionForm s;
       collectionForm := collectionForm s; loading := loading s |}).

Definition setLocation (v : option Location) : M State unit :=
  modify (fun s =>
    {| herbs := herbs s; collectionEvents := collectionEvents s;
       collector := collector s; location := v;
       showCollectionForm := showCollectionForm s;
       collectionForm := collectionForm s; loading := loading s |}).

Definition setLoading (v : bool) : M State unit :=
  modify (fun s =>
    {| herbs := herbs s; collectionEvents := collectionEvents s;
       collector := collector s; location := location s;
       showCollectionForm := showCollectionForm s;
       collectionForm := collectionForm s; loading := v |}).

Definition setCollector (v : option row) : M State unit :=
  modify (fun s =>
    {| herbs := herbs s; collectionEvents := collectionEvents s; collector := v;
       location := location s; showCollectionForm := showCollectionForm s;
       collectionForm := collectionForm s; loading := loading s |}).

Definition setShowCollectionForm (v : bool) : M State unit :=
  modify (fun s =>
    {| herbs := herbs s; collectionEvents := collectionEvents s;
       collector := collector s; location := location s; showCollectionForm := v;
       collectionForm := collectionForm s; loading := loading s |}).

Definition setCollectionForm (v : CollectionForm) : M State unit :=
  modify (fun s =>
    {| herbs := herbs s; collectionEvents := collectionEvents s;
       collector := collector s; location := location s;
       showCollectionForm := showCollectionForm s;
       collectionForm := v; loading := loading s |}).

Definition fetch_failed_toast : Toast :=
  {| title := "Error"; description := "Failed to fetch data"; variant_ := destructive |}.

Definition location_toast : Toast :=
  {| title := "Location Error";
     description := "Unable to get current location. Please enable location services.";
     variant_ := destructive |}.

Definition profile_created_toast : Toast :=
  {| title := "Success"; description := "Collector profile created successfully";
     variant_ := default |}.

Definition profile_failed_toast : Toast :=
  {| title := "Error"; description := "Failed to create collector profile";
     variant_ := destructive |}.

Definition required_toast : Toast :=
  {| title := "Error";
     description := "Please fill all required fields and ensure location is available";
     variant_ := destructive |}.

Definition recorded_toast : Toast :=
  {| title := "Success"; description := "Collection event recorded successfully";
     variant_ := default |}.

Definition record_failed_toast : Toast :=
  {| title := "Error"; description := "Failed to record collection event";
     variant_ := destructive |}.

Section Handlers.
Context {builtins : Builtins}.
Variable profile : option row.

Definition parse_json (text : string) : M State value :=
  match JSON_parse text with
  | inl v => ret v
  | inr e => throw e
  end.

(** [text ? JSON.parse(text) : null] *)
Definition parse_json_or_null (text : string) : M State value :=
  if str_truthy text then parse_json text else ret null.

Definition own_collector_query : Store.query :=
  {| Store.from := Store.collectors;
     Store.relations := [];
     Store.filters := [Store.eq_filter "profile_id" (opt_get "id" profile)];
     Store.order := None |}.

Definition all_herbs_query : Store.query :=
  {| Store.from := Store.herbs;
     Store.relations := [];
     Store.filters := [];
     Store.order := Some ("botanical_name", true) |}.

Definition own_events_query (collectorData : row) : Store.query :=
  {| Store.from := Store.collection_events;
     Store.relations :=
       [Store.Rel "herbs" "herb_id" Store.herbs
                  (Some ["botanical_name"; "local_name"]) []];
     Store.filters := [Store.eq_filter "collector_id" (get "id" collectorData)];
     Store.order := Some ("collection_timestamp", false) |}.

(** [collectorError && collectorError.code !== 'PGRST116'] *)
Definition is_real_error (e : option exn) : option exn :=
  match e with
  | Some x =>
      match code x with
      | Some c => if c =? "PGRST116" then None else Some x
      | None => Some x
      end
  | None => None
  end.

(** [const fetchData = async () => ...] *)
Definition fetchData (collector_rejected herbs_rejected events_rejected : option exn)
  : M State unit :=
  finally
    (try_catch
       (c <- select_single own_collector_query collector_rejected ;;
        throw_if (is_real_error (Store.error c)) ;;
        hs <- select all_herbs_query herbs_rejected ;;
        throw_if (Store.error hs) ;;
        eventsData <-
          match Store.data c with
          | Some collectorData =>
              es <- select (own_events_query collectorData) events_rejected ;;
              throw_if (Store.error es) ;;
              ret (match Store.data es with Some l => l | None => [] end)
          | None => ret []
          end ;;
        setCollector (Store.data c) ;;
        setHerbs (match Store.data hs with Some l => l | None => [] end) ;;
        setCollectionEvents eventsData)
       (fun error =>
          emit (console_error "Error fetching data:" error) ;;
          emit (toast fetch_failed_toast)))
    (setLoading false).

(** [const getCurrentLocation = () => ...]; [position] is what the
    browser answers: nothing when [navigator.geolocation] is missing, else
    the coordinates or an error. *)
Definition getCurrentLocation (position : option (Location + exn)) : M State unit :=
  match position with
  | None => ret tt
  | Some (inl coords) => setLocation (Some coords)
  | Some (inr error) =>
      emit (console_error "Error getting location:" error) ;;
      emit (toast location_toast)
  end.

(** [const createCollectorProfile = async () => ...], an
    [insert(...).select().single()]. *)
Definition createCollectorProfile (result : exn + list row) : M State unit :=
  try_catch
    (r <- insert Store.collectors
            [[("profile_id", opt_get "id" profile);
              ("collector_type",
               if Store.same_cell (opt_get "role" profile) (Str "farmer")
               then Str "farmer" else Str "wild_collector");
              ("verification_status", Str "pending");
              ("aadhaar_id", opt_get "aadhaar_id" profile);
              ("cooperative_id", opt_get "cooperative_group" profile)]]
            true result ;;
     match Store.error r, Store.data r with
     | Some e, _ => throw e
     | None, Some [data] =>
         setCollector (Some data) ;;
         emit (toast profile_created_toast)
     | None, _ => throw Store.PGRST116
     end)
    (fun error =>
       emit (console_error "Error creating collector profile:" error) ;;
       emit (toast profile_failed_toast)).

(** [const recordCollection = async () => ...] *)
Definition recordCollection (result : exn + list row) (st : State) : M State unit :=
  match collector st, location st with
  | Some c, Some loc =>
      if negb (str_truthy (herb_id (collectionForm st)))
         || negb (str_truthy (quantity_kg (collectionForm st)))
      then emit (toast required_toast)
      else
        try_catch
          (env <- parse_json_or_null (environmental_data (collectionForm st)) ;;
           storage <- parse_json_or_null (storage_conditions (collectionForm st)) ;;
           r <- insert Store.collection_events
                  [[("collector_id", get "id" c);
                    ("herb_id", Str (herb_id (collectionForm st)));
                    ("quantity_kg", Num (parseFloat (quantity_kg (collectionForm st))));
                    ("latitude", Num (lat loc));
                    ("longitude", Num (lng loc));
                    ("plant_part", Str (plant_part (collectionForm st)));
                    ("harvest_season", Str (harvest_season (collectionForm st)));
                    ("initial_condition", Str (initial_condition (collectionForm st)));
                    ("environmental_data", env);
                    ("storage_conditions", storage)]]
                  false result ;;
           throw_if (Store.error r) ;;
           emit (toast recorded_toast) ;;
           setCollectionForm empty_form ;;
           setShowCollectionForm false ;;
           emit (spawn "fetchData"))
          (fun error =>
             emit (console_error "Error recording collection:" error) ;;
             emit (toast record_failed_toast))
  | _, _ => emit (toast required_toast)
  end.

End Handlers.

End Collector.

(* ================================================================== *)
(** ** AdminPortal.tsx *)
(* ================================================================== *)

Module Admin.
Import JS UI.
Local Open Scope handler_scope.

Record HerbForm : Type := {
  botanical_name : string;
  local_name : string;
  plant_family : string;
  conservation_status : string;
  approved_regions : string;
  medicinal_properties : string;
  harvest_season : string
}.

Record RuleForm : Type := {
  herb_id : string;
  rule_type : string;
  rule_parameters : string
}.

Definition empty_herb_form : HerbForm :=
  {| botanical_name := ""; local_name := ""; plant_family := "";
     conservation_status := ""; approved_regions := "";
     medicinal_properties := ""; harvest_season := "" |}.

Definition empty_rule_form : RuleForm :=
  {| herb_id := ""; rule_type := ""; rule_parameters := "" |}.

Record State : Type := {
  users : list row;
  herbs : list row;
  complianceRules : list row;
  activeTab : string;
  loading : bool;
  showHerbForm : bool;
  showRuleForm : bool;
  herbForm : HerbForm;
  ruleForm : RuleForm
}.

Definition initial : State :=
  {| users := []; herbs := []; complianceRules := []; activeTab := "overview";
     loading := true; showHerbForm := false; showRuleForm := false;
     herbForm := empty_herb_form; ruleForm := empty_rule_form |}.

Definition setUsers (v : list row) : M State unit :=
  modify (fun s =>
    {| users := v; herbs := herbs s; complianceRules := complianceRules s;
       activeTab := activeTab s; loading := loading s;
       showHerbForm := showHerbForm s; showRuleForm := showRuleForm s;
       herbForm := herbForm s; ruleForm := ruleForm s |}).

Definition setHerbs (v : list row) : M State unit :=
  modify (fun s =>
    {| users := users s; herbs := v; complianceRules := complianceRules s;
       activeTab := activeTab s; loading := loading s;
       showHerbForm := showHerbForm s; showRuleForm := showRuleForm s;
       herbForm := herbForm s; ruleForm := ruleForm s |}).

Definition setComplianceRules (v : list row) : M State unit :=
  modify (fun s =>
    {| users := users s; herbs := herbs s; complianceRules := v;
       activeTab := activeTab s; loading := loading s;
       showHerbForm := showHerbForm s; showRuleForm := showRuleForm s;
       herbForm := herbForm s; ruleForm := ruleForm s |}).

Definition setLoading (v : bool) : M State unit :=
  modify (fun s =>
    {| users := users s; herbs := herbs s; complianceRules := complianceRules s;
       activeTab := activeTab s; loading := v;
       showHerbForm := showHerbForm s; showRuleForm := showRuleForm s;
       herbForm := herbForm s; ruleForm := ruleForm s |}).

Definition newest_first (t : Store.table) (rels : list Store.relation) : Store.query :=
  {| Store.from := t;
     Store.relations := rels;
     Store.filters := [];
     Store.order := Some ("created_at", false) |}.

Definition fetch_failed_toast : Toast :=
  {| title := "Error"; description := "Failed to fetch admin data";
     variant_ := destructive |}.

(** [const fetchData = async () => ...] *)
Definition fetchData (users_rejected herbs_rejected rules_rejected : option exn)
  : M State unit :=
  finally
    (try_catch
       (us <- select (newest_first Store.profiles []) users_rejected ;;
        throw_if (Store.error us) ;;
        hs <- select (newest_first Store.herbs []) herbs_rejected ;;
        throw_if (Store.error hs) ;;
        rs <- select (newest_first Store.compliance_rules
                        [Store.Rel "herbs" "herb_id" Store.herbs
                                   (Some ["botanical_name"; "local_name"]) []])
                     rules_rejected ;;
        throw_if (Store.error rs) ;;
        setUsers (match Store.data us with Some l => l | None => [] end) ;;
        setHerbs (match Store.data hs with Some l => l | None => [] end) ;;
        setComplianceRules (match Store.data rs with Some l => l | None => [] end))
       (fun error =>
          emit (console_error "Error fetching data:" error) ;;
          emit (toast fetch_failed_toast)))
    (setLoading false).

Definition setShowHerbForm (v : bool) : M State unit :=
  modify (fun s =>
    {| users := users s; herbs := herbs s; complianceRules := complianceRules s;
       activeTab := activeTab s; loading := loading s; showHerbForm := v;
       showRuleForm := showRuleForm s; herbForm := herbForm s;
       ruleForm := ruleForm s |}).

Definition setShowRuleForm (v : bool) : M State unit :=
  modify (fun s =>
    {| users := users s; herbs := herbs s; complianceRules := complianceRules s;
       activeTab := activeTab s; loading := loading s;
       showHerbForm := showHerbForm s; showRuleForm := v;
       herbForm := herbForm s; ruleForm := ruleForm s |}).

Definition setHerbForm (v : HerbForm) : M State unit :=
  modify (fun s =>
    {| users := users s; herbs := herbs s; complianceRules := complianceRules s;
       activeTab := activeTab s; loading := loading s;
       showHerbForm := showHerbForm s; showRuleForm := showRuleForm s;
       herbForm := v; ruleForm := ruleForm s |}).

Definition setRuleForm (v : RuleForm) : M State unit :=
  modify (fun s =>
    {| users := users s; herbs := herbs s; complianceRules := complianceRules s;
       activeTab := activeTab s; loading := loading s;
       showHerbForm := showHerbForm s; showRuleForm := showRuleForm s;
       herbForm := herbForm s; ruleForm := v |}).

Definition herb_added_toast : Toast :=
  {| title := "Success"; description := "Herb added successfully";
     variant_ := default |}.

Definition herb_failed_toast : Toast :=
  {| title := "Error"; description := "Failed to create herb";
     variant_ := destructive |}.

Definition rule_created_toast : Toast :=
  {| title := "Success"; description := "Compliance rule created successfully";
     variant_ := default |}.

Definition rule_failed_toast : Toast :=
  {| title := "Error"; description := "Failed to create compliance rule";
     variant_ := destructive |}.

(** [text ? text.split(',').map(x => x.trim()) : null] *)
Definition comma_list (text : string) : value :=
  if str_truthy text
  then Arr (map (fun x => Str (trim x)) (split "," text))
  else null.

Definition herb_row (f : HerbForm) : row :=
  [("botanical_name", Str (botanical_name f));
   ("local_name", Str (local_name f));
   ("plant_family", str_or_null (plant_family f));
   ("conservation_status", str_or_null (conservation_status f));
   ("approved_regions", comma_list (approved_regions f));
   ("medicinal_properties", comma_list (medicinal_properties f));
   ("harvest_season", comma_list (harvest_season f))].

Section Handlers.
Context {builtins : Builtins}.

Definition parse_json (text : string) : M State value :=
  match JSON_parse text with
  | inl v => ret v
  | inr e => throw e
  end.

(** [const createHerb = async () => ...] *)
Definition createHerb (result : exn + list row) (st : State) : M State unit :=
  try_catch
    (r <- insert Store.herbs [herb_row (herbForm st)] false result ;;
     throw_if (Store.error r) ;;
     emit (toast herb_added_toast) ;;
     setHerbForm empty_herb_form ;;
     setShowHerbForm false ;;
     emit (spawn "fetchData"))
    (fun error =>
       emit (console_error "Error creating herb:" error) ;;
       emit (toast herb_failed_toast)).

(** [const createComplianceRule = async () => ...] *)
Definition createComplianceRule (result : exn + list row) (st : State)
  : M State unit :=
  try_catch
    (params <- parse_json (rule_parameters (ruleForm st)) ;;
     r <- insert Store.compliance_rules
            [[("herb_id", Str (herb_id (ruleForm st)));
              ("rule_type", Str (rule_type (ruleForm st)));
              ("rule_parameters", params)]]
            false result ;;
     throw_if (Store.error r) ;;
     emit (toast rule_created_toast) ;;
     setRuleForm empty_rule_form ;;
     setShowRuleForm false ;;
     emit (spawn "fetchData"))
    (fun error =>
       emit (console_error "Error creating compliance rule:" error) ;;
       emit (toast rule_failed_toast)).

End Handlers.

(** Property names every object literal inherits from [Object.prototype]:
    reading [acc[name]] for one of them finds the inherited member, not a
    count. *)
Definition inherited_names : list string :=
  ["constructor"; "__proto__"; "hasOwnProperty"; "isPrototypeOf";
   "propertyIsEnumerable"; "toLocaleString"; "toString"; "valueOf";
   "__defineGetter__"; "__defineSetter__"; "__lookupGetter__";
   "__lookupSetter__"].

Definition is_digit (c : ascii) : bool :=
  ((48 <=? nat_of_ascii c)%nat && (nat_of_ascii c <=? 57)%nat)%bool.

Fixpoint all_digits (s : string) : bool :=
  match s with
  | EmptyString => true
  | String c s' => is_digit c && all_digits s'
  end.

(** The property key [user.role] stands for, where the counting below is
    the plain one: a role that is a string (or missing), not the name of
    an inherited member, and not made of digits only (integer-like keys
    are listed first by [Object.entries], whatever the insertion order). *)
Definition role_key (user : row) : option string :=
  match get "role" user with
  | Str s =>
      if existsb (String.eqb s) inherited_names then None
      else if negb (s =? "") && all_digits s then None
      else Some s
  | undefined => Some "undefined"
  | null => Some "null"
  | _ => None
  end.

(** [acc[role] = (acc[role] || 0) + 1] on an object kept as its entries in
    insertion order. *)
Fixpoint count_role (role : string) (acc : list (string * nat)) : list (string * nat) :=
  match acc with
  | [] => [(role, 1)]
  | (k, n) :: acc' =>
      if k =? role then (k, n + 1) :: acc' else (k, n) :: count_role role acc'
  end.

(** [users.reduce((acc, user) => ..., {})]; [None] when a role falls
    outside [role_key]. *)
Fixpoint count_roles (users : list row) (acc : list (string * nat))
  : option (list (string * nat)) :=
  match users with
  | [] => Some acc
  | user :: users' =>
      match role_key user with
      | Some role => count_roles users' (count_role role acc)
      | None => None
      end
  end.

(** The sum of the counts of an object of counts, and the count one
    role has in it ([0] for a role that is not listed). *)
Definition total (acc : list (string * nat)) : nat :=
  fold_right (fun kn n => snd kn + n) 0 acc.

Definition count_of (role : string) (acc : list (string * nat)) : nat :=
  match List.find (fun kn => fst kn =? role) acc with
  | Some kn => snd kn
  | None => 0
  end.

Record Stats : Type := {
  totalUsers : nat;
  totalHerbs : nat;
  totalRules : nat;
  roleStats : list (string * nat)
}.

(** [const getOverviewStats = () => ...] *)
Definition getOverviewStats (st : State) : option Stats :=
  match count_roles (users st) [] with
  | Some stats =>
      Some {| totalUsers := List.length (users st);
              totalHerbs := List.length (herbs st);
              totalRules := List.length (complianceRules st);
              roleStats := stats |}
  | None => None
  end.

End Admin.

(* ================================================================== *)
(** ** components/auth/AuthForm.tsx *)
(* ================================================================== *)

Module Auth.
Import JS UI.
Local Open Scope handler_scope.

Record FormData : Type := {
  email : string;
  password : string;
  full_name : string;
  phone : string;
  role : string;
  organization : string;
  aadhaar_id : string;
  cooperative_group : string;
  location : string
}.

Record State : Type := {
  isSignIn : bool;
  loading : bool;
  formData : FormData
}.

Definition setLoading (v : bool) : M State unit :=
  modify (fun s => {| isSignIn := isSignIn s; loading := v; formData := formData s |}).

Definition auth_error_toast (msg : string) : Toast :=
  {| title := "Authentication Error"; description := msg; variant_ := destructive |}.

(** [const handleSubmit = async (e) => ...]; [auth_error] is the [error]
    member of what the auth provider answers. *)
Definition handleSubmit (auth_error : option exn) (st : State) : M State unit :=
  setLoading true ;;
  finally
    (try_catch
       (if isSignIn st then
          emit (foreign_call "signIn"
                  [Str (email (formData st)); Str (password (formData st))]) ;;
          throw_if auth_error
        else
          if negb (str_truthy (role (formData st))) then
            throw (Error "Please select your role")
          else
            emit (foreign_call "signUp"
                    [Str (email (formData st)); Str (password (formData st));
                     Obj [("full_name", Str (full_name (formData st)));
                          ("phone", Str (phone (formData st)));
                          ("role", Str (role (formData st)));
                          ("organization", Str (organization (formData st)));
                          ("aadhaar_id", Str (aadhaar_id (formData st)));
                          ("cooperative_group", Str (cooperative_group (formData st)));
                          ("location", Str (location (formData st)))]]) ;;
            throw_if auth_error)
       (fun error => emit (toast (auth_error_toast (message error)))))
    (setLoading false).

End Auth.

(* ================================================================== *)
(** ** The portals side by side *)
(* ================================================================== *)

Module Portals.
Import JS UI.

(** The state of whichever component is on screen. *)
Inductive screen : Type :=
| FactoryScreen (s : Factory.State)
| LabScreen (s : Lab.State)
| CollectorScreen (s : Collector.State)
| AdminScreen (s : Admin.State)
| ConsumerScreen (s : Consumer.State)
| AuthScreen (s : Auth.State).

(** A user action: the button handler that runs, the state of its
    component when the button is pressed, the signed-in profile where the
    handler reads it, and what the outside world answers. *)
Inductive action : Type :=
| CreateProcessingStep (profile : option row) (result : exn + list row)
                       (st : Factory.State)
| CreateProduct (profile : option row) (now : N) (result : exn + list row)
                (st : Factory.State)
| UpdateTestResults (now : string) (rejected : option exn) (st : Lab.State)
| CreateCollectorProfile (profile : option row) (result : exn + list row)
                         (st : Collector.State)
| RecordCollection (result : exn + list row) (st : Collector.State)
| CreateHerb (result : exn + list row) (st : Admin.State)
| CreateComplianceRule (result : exn + list row) (st : Admin.State)
| ScanQRCode (rejected : Store.table -> option exn) (st : Consumer.State)
| SubmitAuthForm (auth_error : option exn) (st : Auth.State).

(** Everything the components run: the user actions, and what runs on
    mount and after a successful action (the fetches, the location
    request). *)
Inductive operation : Type :=
| User (a : action)
| FactoryFetch (profile : option row) (batches_rejected steps_rejected : option exn)
               (st : Factory.State)
| LabFetch (profile : option row) (rejected : option exn) (st : Lab.State)
| CollectorFetch (profile : option row)
                 (collector_rejected herbs_rejected events_rejected : option exn)
                 (st : Collector.State)
| CollectorLocate (position : option (Collector.Location + exn))
                  (st : Collector.State)
| AdminFetch (users_rejected herbs_rejected rules_rejected : option exn)
             (st : Admin.State).

Record result : Type := {
  screen_after : screen;
  store_after : Store.database;
  effects : list effect
}.

Definition perform_handler {S : Type} (show : S -> screen) (h : M S unit)
           (st : S) (d : Store.database) : result :=
  let w := run h {| ui := st; db := d; log := [] |} in
  {| screen_after := show (ui w); store_after := db w; effects := log w |}.

(** The screen before the action. *)
Definition before (a : action) : screen :=
  match a with
  | CreateProcessingStep _ _ st | CreateProduct _ _ _ st => FactoryScreen st
  | UpdateTestResults _ _ st => LabScreen st
  | CreateCollectorProfile _ _ st | RecordCollection _ st => CollectorScreen st
  | CreateHerb _ st | CreateComplianceRule _ st => AdminScreen st
  | ScanQRCode _ st => ConsumerScreen st
  | SubmitAuthForm _ st => AuthScreen st
  end.

(** An action failed when it raised a destructive toast. *)
Definition failed (r : result) : bool := existsb is_failure_toast (effects r).

(** An action succeeded when it raised a toast of the default variant. *)
Definition succeeded (r : result) : bool := existsb is_success_toast (effects r).

Section Perform.
Context {builtins : Builtins}.
Variable generateQRCode : value -> string.

Definition perform (d : Store.database) (a : action) : result :=
  match a with
  | CreateProcessingStep profile result st =>
      perform_handler FactoryScreen (Factory.createProcessingStep profile result st) st d
  | CreateProduct profile now result st =>
      perform_handler FactoryScreen
        (Factory.createProduct generateQRCode profile now result st) st d
  | UpdateTestResults now rejected st =>
      perform_handler LabScreen (Lab.updateTestResults now rejected st) st d
  | CreateCollectorProfile profile result st =>
      perform_handler CollectorScreen (Collector.createCollectorProfile profile result) st d
  | RecordCollection result st =>
      perform_handler CollectorScreen (Collector.recordCollection result st) st d
  | CreateHerb result st =>
      perform_handler AdminScreen (Admin.createHerb result st) st d
  | CreateComplianceRule result st =>
      perform_handler AdminScreen (Admin.createComplianceRule result st) st d
  | ScanQRCode rejected st =>
      perform_handler ConsumerScreen (Consumer.scanQRCode rejected st) st d
  | SubmitAuthForm auth_error st =>
      perform_handler AuthScreen (Auth.handleSubmit auth_error st) st d
  end.

Definition operate (d : Store.database) (o : operation) : result :=
  match o with
  | User a => perform d a
  | FactoryFetch profile r1 r2 st =>
      perform_handler FactoryScreen (Factory.fetchData profile r1 r2) st d
  | LabFetch profile rejected st =>
      perform_handler LabScreen (Lab.fetchQualityTests profile rejected) st d
  | CollectorFetch profile r1 r2 r3 st =>
      perform_handler CollectorScreen (Collector.fetchData profile r1 r2 r3) st d
  | CollectorLocate position st =>
      perform_handler CollectorScreen (Collector.getCurrentLocation position) st d
  | AdminFetch r1 r2 r3 st =>
      perform_handler AdminScreen (Admin.fetchData r1 r2 r3) st d
  end.

(** The store after a sequence of operations, each on whatever screen it
    finds. *)
Definition store_after_all (ops : list operation) (d : Store.database)
  : Store.database :=
  fold_left (fun d o => store_after (operate d o)) ops d.

End Perform.

End Portals.

(* ================================================================== *)
(** ** Sample data *)
(* ================================================================== *)

(** Concrete stores, states and built-ins on which the handlers are run
    in the examples below. *)
Module Sample.
Import JS UI.

(** Built-ins that parse the empty object only. *)
Definition builtins : Builtins :=
  {| JSON_parse := fun text =>
       if text =? "{}" then inl (Obj []) else inr (Error "Unexpected token");
     parseFloat := fun _ => Dec 25 (-1);
     parseInt := fun _ => Dec 100 0 |}.

Definition generateQRCode (v : value) : string := "QR".

Definition factory_profile : option row := Some [("id", Str "factory-1")].

Definition approved_batch : row :=
  [("id", Str "B1"); ("batch_status", Str "approved");
   ("creation_timestamp", Str "2024-01-02")].

Definition pending_batch : row :=
  [("id", Str "B2"); ("batch_status", Str "pending");
   ("creation_timestamp", Str "2024-01-03")].

Definition done_step : row :=
  [("id", Str "S1"); ("batch_id", Str "B1"); ("processor_id", Str "factory-1");
   ("process_date", Str "2024-02-01"); ("completion_date", Str "2024-02-02")].

Definition open_step : row :=
  [("id", Str "S2"); ("batch_id", Str "B1"); ("processor_id", Str "factory-1");
   ("process_date", Str "2024-02-03")].

(** One approved and one pending batch; batch B1 has a completed and an
    unfinished processing step. *)
Definition factory_db : Store.database :=
  fun t =>
    match t with
    | Store.batches => [approved_batch; pending_batch]
    | Store.processing_steps => [done_step; open_step]
    | _ => []
    end.

(** A store for the aggregator: one product made of the batches [ids],
    batches B1 and B2, quality tests for B1 (and for a batch B9 that no
    product names). *)
Definition token_of (ids : list string) : string :=
  QR.encode {| QR.type_ := "product"; QR.productId := "PROD_1700000000000";
               QR.batchIds := ids |}.

Definition batch (id : string) : row :=
  [("id", Str id); ("herb_id", Str "H1"); ("batch_status", Str "approved")].

Definition quality_test (id batch_id : string) : row :=
  [("id", Str id); ("batch_id", Str batch_id); ("test_status", Str "completed")].

Definition product (ids : list string) : row :=
  [("id", Str "P1"); ("qr_code", Str (token_of ids));
   ("batch_ids", Arr (map Str ids))].

Definition trace_db (ids : list string) : Store.database :=
  fun t =>
    match t with
    | Store.products => [product ids]
    | Store.batches => [batch "B1"; batch "B2"]
    | Store.quality_tests =>
        [quality_test "T1" "B1"; quality_test "T2" "B1"; quality_test "T3" "B9"]
    | _ => []
    end.

Definition no_rejection : Store.table -> option exn := fun _ => None.

(** A store for the Lab portal: one test, completed, with its results. *)
Definition lab_profile : option row := Some [("id", Str "lab-1")].

Definition earlier_results : Lab.TestResults :=
  {| Lab.moisture_content := "8.5"; Lab.pesticide_residue := "0.01";
     Lab.heavy_metals := "0.1"; Lab.microbial_count := "1000";
     Lab.dna_barcode := "Confirmed: Withania somnifera";
     Lab.overall_grade := "A"; Lab.notes := "" |}.

Definition completed_test : row :=
  [("id", Str "T1"); ("batch_id", Str "B1"); ("lab_id", Str "lab-1");
   ("test_date", Str "2024-02-10"); ("test_status", Str "completed");
   ("completion_date", Str "2024-02-11T09:00:00.000Z");
   ("test_results", Lab.results_object earlier_results)].

Definition lab_db : Store.database :=
  fun t =>
    match t with
    | Store.quality_tests => [completed_test]
    | _ => []
    end.

(** The lab opens the completed test ("View") and saves the form. *)
Definition lab_session : list Lab.event :=
  [Lab.FetchQualityTests None;
   Lab.ClickTest 0;
   Lab.UpdateTestResults "2024-03-01T10:00:00.000Z" None].

(** The Consumer portal showing a trace, an unregistered code typed in. *)
Definition consumer_state : Consumer.State :=
  {| Consumer.qrCode := "PROD_404";
     Consumer.traceData := Some Aggregator.no_trace;
     Consumer.loading := false;
     Consumer.error := "" |}.

Definition store_down : exn := Error "Failed to fetch".

(** The processor picks the listed batch, fills the form in and creates
    a processing step. *)
Definition process_form : Factory.ProcessForm :=
  {| Factory.process_type := "drying";
     Factory.input_quantity_kg := "2.5";
     Factory.process_parameters := "";
     Factory.process_conditions := "" |}.

Definition processing_session : list Factory.event :=
  [Factory.FetchData None None;
   Factory.ClickBatch 0;
   Factory.ChangeProcessForm process_form;
   Factory.CreateProcessingStep (inr [])].

(** A collector signed in whose collector profile does not exist yet. *)
Definition collector_profile : option row :=
  Some [("id", Str "farmer-1"); ("role", Str "farmer")].

Definition herbs_db : Store.database :=
  fun t =>
    match t with
    | Store.herbs => [[("id", Str "H1"); ("botanical_name", Str "Withania somnifera")]]
    | _ => []
    end.

(** The Admin portal with three users loaded. *)
Definition admin_state : Admin.State :=
  {| Admin.users := [[("id", Str "U1"); ("role", Str "farmer")];
                     [("id", Str "U2"); ("role", Str "lab")];
                     [("id", Str "U3"); ("role", Str "farmer")]];
     Admin.herbs := [];
     Admin.complianceRules := [];
     Admin.activeTab := "overview";
     Admin.loading := false;
     Admin.showHerbForm := false;
     Admin.showRuleForm := false;
     Admin.herbForm := Admin.empty_herb_form;
     Admin.ruleForm := Admin.empty_rule_form |}.

Definition product_form : Factory.ProductForm :=
  {| Factory.product_name := "Ashwagandha Tablets";
     Factory.product_type := "tablet";
     Factory.final_quantity := "100";
     Factory.unit_type := "tablets";
     Factory.formulation_details := "" |}.

(** The portal fetches, the form is filled in, the product is created. *)
Definition factory_session : list Factory.event :=
  [Factory.FetchData None None;
   Factory.ChangeProductForm product_form;
   Factory.CreateProduct 1700000000000 (inr [])].

End Sample.

(* ================================================================== *)
(** * Properties *)
(* ================================================================== *)

(** ** Built-ins on sample inputs *)

Example trim_sample :
  JS.trim (String (ascii_of_nat 9) "  PROD 1 " ++ String (ascii_of_nat 10) "")%string
  = "PROD 1".
Proof. reflexivity. Qed.

Example split_sample :
  map JS.trim (JS.split "," "Rajasthan, Gujarat,") = ["Rajasthan"; "Gujarat"; ""].
Proof. reflexivity. Qed.

Example template_sample :
  ("PROD_" ++ JS.decimal 1700000000000)%string = "PROD_1700000000000".
Proof. reflexivity. Qed.

Example order_by_sample :
  map (JS.get "id")
      (Store.order_by (Some ("creation_timestamp", false))
                      [Sample.approved_batch; Sample.pending_batch])
  = [JS.Str "B2"; JS.Str "B1"].
Proof. reflexivity. Qed.

(** ** The token codec *)

Section Codec.
Import QR.

Lemma read_chars_write_chars (s k : string) :
  read_chars (write_chars s (String dquote k)) = Some (s, k).
Proof.
  induction s as [|c r IH]; simpl.
  - reflexivity.
  - destruct (needs_escape c) eqn:E.
    + simpl. rewrite E, IH. reflexivity.
    + unfold needs_escape in E. apply orb_false_elim in E as [E1 E2].
      simpl. rewrite E1, E2, IH. reflexivity.
Qed.

Lemma read_string_write_string (s k : string) :
  read_string (write_string s k) = Some (s, k).
Proof.
  unfold read_string, write_string. simpl. apply read_chars_write_chars.
Qed.

Lemma length_write_chars (s k : string) :
  String.length k <= String.length (write_chars s k).
Proof.
  induction s as [|c r IH]; simpl.
  - lia.
  - destruct (needs_escape c); simpl; lia.
Qed.

Lemma length_write_items (l : list string) (k : string) :
  List.length l + String.length k <= String.length (write_items l k).
Proof.
  revert k. induction l as [|x l IH]; intro k.
  - simpl. lia.
  - destruct l as [|y l'].
    + simpl. pose proof (length_write_chars x (String dquote k)). simpl in *. lia.
    + change (write_items (x :: y :: l') k)
        with (write_string x (String "," (write_items (y :: l') k))).
      unfold write_string.
      pose proof (length_write_chars x
                    (String dquote (String "," (write_items (y :: l') k)))) as H.
      specialize (IH k). simpl in *. lia.
Qed.

Lemma read_items_write_items (l : list string) (k : string) (fuel : nat) :
  l <> [] -> List.length l <= fuel ->
  read_items fuel (write_items l (String "]" k)) = Some (l, k).
Proof.
  revert fuel. induction l as [|x l IH]; intros fuel Hne Hfuel.
  - congruence.
  - destruct fuel as [|fuel]; [simpl in Hfuel; lia|].
    destruct l as [|y l'].
    + cbn [read_items write_items]. rewrite read_string_write_string. reflexivity.
    + change (write_items (x :: y :: l') (String "]" k))
        with (write_string x (String "," (write_items (y :: l') (String "]" k)))).
      cbn [read_items]. rewrite read_string_write_string.
      cbn -[read_items write_items].
      rewrite IH; [reflexivity | discriminate | simpl in *; lia].
Qed.

Lemma read_array_write_array (l : list string) (k : string) :
  read_array (write_array l k) = Some (l, k).
Proof.
  destruct l as [|x l].
  - reflexivity.
  - unfold write_array.
    assert (Hshape : exists r, write_items (x :: l) (String "]" k) = String dquote r).
    { destruct l; simpl; unfold write_string; eauto. }
    destruct Hshape as [r Hr].
    pose proof (length_write_items (x :: l) (String "]" k)) as Hlen.
    pose proof (read_items_write_items (x :: l) k
                  (String.length (write_items (x :: l) (String "]" k)))) as Hread.
    rewrite Hr in *. simpl read_array.
    apply Hread; [discriminate | lia].
Qed.

Lemma parse_encode (p : payload) : parse (encode p) = Some p.
Proof.
  destruct p as [t i b]. unfold parse, encode, read_key, write_key.
  cbn -[read_string write_string read_array write_array].
  rewrite read_string_write_string.
  cbn -[read_string write_string read_array write_array].
  rewrite read_string_write_string.
  cbn -[read_string write_string read_array write_array].
  rewrite read_array_write_array. reflexivity.
Qed.

(** C1. Decoding the token of a payload gives the payload back, for every
    payload of the QR payload shape: [decode (encode p) = p]. *)
Theorem decode_encode (p : QR.payload) : QR.decode (QR.encode p) = QR.Payload p.
Proof.
  unfold decode. rewrite parse_encode. reflexivity.
Qed.

(** The scenario of section 8. *)
Example scenario_round_trip :
  let p := {| type_ := "product"; productId := "PROD_1700000000000";
              batchIds := ["B1"] |} in
  QR.decode (QR.encode p) = QR.Payload p.
Proof. vm_compute. reflexivity. Qed.

(** A token that is no JSON text of a payload is malformed. *)
Example decode_malformed : QR.decode "PROD_1700000000000" = QR.MalformedToken.
Proof. reflexivity. Qed.

End Codec.

(** ** Objects and queries *)

Section Rows.
Import JS Store.

Lemma get_set_eq (k : string) (v : value) (r : row) : get k (set k v r) = v.
Proof.
  induction r as [|[k' v'] r IH]; simpl.
  - rewrite String.eqb_refl. reflexivity.
  - destruct (String.eqb_spec k' k) as [->|Hne]; simpl.
    + rewrite String.eqb_refl. reflexivity.
    + destruct (String.eqb_spec k' k); [contradiction | exact IH].
Qed.

Lemma get_set_ne (k k' : string) (v : value) (r : row) :
  k' <> k -> get k (set k' v r) = get k r.
Proof.
  intro Hne. induction r as [|[k0 v0] r IH]; simpl.
  - destruct (String.eqb_spec k' k); [contradiction | reflexivity].
  - destruct (String.eqb_spec k0 k') as [->|Hk0]; simpl.
    + destruct (String.eqb_spec k' k); [contradiction | reflexivity].
    + destruct (String.eqb_spec k0 k); [reflexivity | exact IH].
Qed.

Lemma get_expand (d : database) (rel : relation) (k : string) (r : row) :
  alias_of rel <> k -> get k (expand d rel r) = get k r.
Proof.
  destruct rel as [a fk t cols nested]. simpl. intro Hne.
  apply get_set_ne. exact Hne.
Qed.

Lemma get_expand_all (d : database) (rels : list relation) (k : string) (r : row) :
  Forall (fun rel => alias_of rel <> k) rels ->
  get k (expand_all d rels r) = get k r.
Proof.
  unfold expand_all. induction 1 as [|rel rels Hrel _ IH]; simpl.
  - reflexivity.
  - rewrite get_expand by exact Hrel. exact IH.
Qed.

Lemma place_perm (col : string) (asc : bool) (r : row) (l : list row) :
  Permutation (place col asc r l) (r :: l).
Proof.
  induction l as [|x l IH]; simpl.
  - apply Permutation_refl.
  - destruct (goes_before asc (sort_key col r) (sort_key col x)).
    + apply Permutation_refl.
    + eapply perm_trans; [apply perm_skip, IH | apply perm_swap].
Qed.

Lemma order_by_perm (o : option (string * bool)) (l : list row) :
  Permutation (order_by o l) l.
Proof.
  destruct o as [[col asc]|]; simpl; [|apply Permutation_refl].
  induction l as [|x l IH]; simpl.
  - apply perm_nil.
  - eapply perm_trans; [apply place_perm | apply perm_skip, IH].
Qed.

(** Every row of a select is a stored row that passes the filters, with
    its relations attached. *)
Lemma in_run_select (d : database) (q : query) (x : row) :
  In x (run_select d q) ->
  exists r, In r (d (from q)) /\ matches_all (filters q) r = true
            /\ x = expand_all d (relations q) r.
Proof.
  unfold run_select. intro Hin. apply in_map_iff in Hin as [r [Hx Hr]].
  apply (Permutation_in _ (order_by_perm _ _)) in Hr.
  apply filter_In in Hr as [Hr Hm]. exists r. auto.
Qed.

Lemma length_run_select (d : database) (q : query) :
  List.length (run_select d q)
  = List.length (List.filter (matches_all (filters q)) (d (from q))).
Proof.
  unfold run_select. rewrite length_map.
  apply Permutation_length, order_by_perm.
Qed.

Lemma cell_is_true (c : value) (s : string) : cell_is c s = true <-> c = Str s.
Proof.
  destruct c; simpl; try (split; [discriminate | congruence]).
  split.
  - intro H. apply String.eqb_eq in H. congruence.
  - intro H. injection H as ->. apply String.eqb_refl.
Qed.

End Rows.

(** ** Proof steps shared by the handlers *)

Ltac unfold_handler :=
  unfold UI.run, UI.effects, UI.state_after, UI.db_after,
         UI.finally, UI.try_catch, UI.bind, UI.ret, UI.throw, UI.throw_if,
         UI.emit, UI.modify, UI.select, UI.select_single, UI.insert, UI.update in *.

Ltac case_split :=
  repeat match goal with
         | |- context [match ?x with _ => _ end] =>
             lazymatch x with
             | context [match _ with _ => _ end] => fail
             | _ => destruct x eqn:?; simpl in *
             end
         end.

(** ** The Factory portal *)

Section FactoryFacts.
Import JS UI Store Factory.
Context {builtins : Builtins}.
Variable generateQRCode : value -> string.
Variable profile : option row.

Lemma approved_batches_query_rows (d : database) (b : row) :
  In b (run_select d approved_batches_query) ->
  get "batch_status" b = Str "approved".
Proof.
  intro Hin. apply in_run_select in Hin as [r [_ [Hm ->]]].
  rewrite get_expand_all.
  - simpl in Hm. rewrite andb_true_r in Hm.
    apply cell_is_true. exact Hm.
  - repeat constructor. simpl. discriminate.
Qed.

Lemma fetchData_available (r1 r2 : option exn) (w : world State) :
  Forall (fun b => get "batch_status" b = Str "approved") (availableBatches (ui w)) ->
  Forall (fun b => get "batch_status" b = Str "approved")
         (availableBatches (ui (run (fetchData profile r1 r2) w))).
Proof.
  intro H. unfold fetchData, setAvailableBatches, setProcessingSteps, setLoading.
  unfold_handler.
  destruct r1, r2; simpl; try exact H.
  apply Forall_forall. intros b Hb.
  eapply approved_batches_query_rows; eassumption.
Qed.

Lemma createProcessingStep_available (result : exn + list row) (w : world State) :
  availableBatches (ui (run (createProcessingStep profile result (ui w)) w))
  = availableBatches (ui w).
Proof.
  unfold createProcessingStep, parse_json, setProcessForm, setSelectedBatch.
  unfold_handler. case_split; reflexivity.
Qed.

Lemma createProduct_available (now : N) (result : exn + list row) (w : world State) :
  availableBatches
    (ui (run (createProduct generateQRCode profile now result (ui w)) w))
  = availableBatches (ui w).
Proof.
  unfold createProduct, parse_json, setProductForm, setShowProductForm.
  unfold_handler. case_split; reflexivity.
Qed.

Lemma handle_available (e : event) (w : world State) :
  Forall (fun b => get "batch_status" b = Str "approved") (availableBatches (ui w)) ->
  Forall (fun b => get "batch_status" b = Str "approved")
         (availableBatches (ui (handle generateQRCode profile e w))).
Proof.
  intro H. destruct e; simpl.
  - apply fetchData_available. exact H.
  - destruct (nth_error (availableBatches (ui w)) index); exact H.
  - exact H.
  - exact H.
  - exact H.
  - exact H.
  - rewrite createProcessingStep_available. exact H.
  - rewrite createProduct_available. exact H.
  - exact H.
Qed.

(** C9. Whatever happens to the mounted Factory portal (fetches that
    succeed or fail, clicks, form edits, creations, other actors changing
    the store), every batch in its available-batch list has
    [batch_status] equal to 'approved'. *)
Theorem available_batches_approved (events : list event) (d : database) :
  Forall (fun b => get "batch_status" b = Str "approved")
         (availableBatches (ui (after generateQRCode profile events d))).
Proof.
  unfold after. generalize (Forall_nil (fun b => get "batch_status" b = Str "approved")).
  change (@nil row) with (availableBatches (ui (mounted d))).
  generalize (mounted d).
  induction events as [|e events IH]; intros w Hw; simpl.
  - exact Hw.
  - apply IH, handle_available, Hw.
Qed.

Lemma completed_batch_ids_spec (steps : list row) (id : value) :
  In id (completed_batch_ids steps) <->
  exists step, In step steps /\ get "batch_id" step = id
               /\ truthy (get "completion_date" step) = true.
Proof.
  unfold completed_batch_ids. rewrite in_map_iff. split.
  - intros [step [Hid Hin]]. apply filter_In in Hin as [Hin Hdone]. eauto.
  - intros [step [Hin [Hid Hdone]]]. exists step. split; [exact Hid|].
    apply filter_In. auto.
Qed.

Lemma createProduct_inserts (now : N) (result : exn + list row) (st : State)
      (d : database) (t : table) (rows : list row) (returning : bool) :
  In (store_call (Store.insert t rows returning))
     (effects (createProduct generateQRCode profile now result st) st d) ->
  exists details,
    t = products /\ rows = [product_row generateQRCode profile now details st].
Proof.
  unfold createProduct, parse_json, setProductForm, setShowProductForm.
  unfold_handler. case_split; intro H;
    repeat (destruct H as [H|H]; [try discriminate; injection H as <- <- <-; eauto|]);
    contradiction.
Qed.

(** C4 (amended). Every Product row that [createProduct] sends to the
    store lists in [batch_ids] exactly the [batch_id] of the completed
    processing steps (those with a [completion_date]) among the steps the
    portal has loaded, one entry per completed step: every listed batch
    has at least one completed step, and the batch of every completed
    step is listed. *)
Theorem product_batch_ids_of_completed_steps
        (now : N) (result : exn + list row) (st : State) (d : database)
        (t : table) (r : row) (returning : bool) :
  In (store_call (Store.insert t [r] returning))
     (effects (createProduct generateQRCode profile now result st) st d) ->
  exists ids,
    t = products /\ get "batch_ids" r = Arr ids /\
    ids = completed_batch_ids (processingSteps st) /\
    forall id, In id ids <->
               exists step, In step (processingSteps st)
                            /\ get "batch_id" step = id
                            /\ truthy (get "completion_date" step) = true.
Proof.
  intro Hin. apply createProduct_inserts in Hin as [details [-> Hrows]].
  injection Hrows as ->.
  exists (completed_batch_ids (processingSteps st)).
  repeat split; try apply completed_batch_ids_spec; auto.
Qed.

End FactoryFacts.

(** The product created in the sample session lists batch B1 because of
    its completed step. *)
Lemma product_batch_ids_of_completed_steps_witness :
  let st := UI.ui (Factory.after (builtins := Sample.builtins) Sample.generateQRCode
                     Sample.factory_profile
                     [Factory.FetchData None None;
                      Factory.ChangeProductForm Sample.product_form]
                     Sample.factory_db) in
  let r := Factory.product_row (builtins := Sample.builtins) Sample.generateQRCode
             Sample.factory_profile 1700000000000 (JS.Obj []) st in
  In (UI.store_call (Store.insert Store.products [r] false))
     (UI.effects (Factory.createProduct (builtins := Sample.builtins)
                    Sample.generateQRCode Sample.factory_profile
                    1700000000000 (inr []) st) st Sample.factory_db)
  /\ exists ids,
      Store.products = Store.products /\ JS.get "batch_ids" r = JS.Arr ids /\
      ids = Factory.completed_batch_ids (Factory.processingSteps st) /\
      forall id, In id ids <->
                 exists step, In step (Factory.processingSteps st)
                              /\ JS.get "batch_id" step = id
                              /\ JS.truthy (JS.get "completion_date" step) = true.
Proof.
  intros st r.
  assert (Hin : In (UI.store_call (Store.insert Store.products [r] false))
                   (UI.effects (Factory.createProduct (builtins := Sample.builtins)
                                  Sample.generateQRCode Sample.factory_profile
                                  1700000000000 (inr []) st) st Sample.factory_db)).
  { vm_compute. left. reflexivity. }
  split; [exact Hin|].
  exact (product_batch_ids_of_completed_steps (builtins := Sample.builtins)
           Sample.generateQRCode Sample.factory_profile
           1700000000000 (inr []) st Sample.factory_db
           Store.products r false Hin).
Defined.

(** C4 as stated fails: in the sample session batch B1 has a completed
    and an unfinished processing step, and the Product row sent to the
    store lists B1. *)
Lemma product_references_unfinished_batch :
  exists r step,
    In (UI.store_call (Store.insert Store.products [r] false))
       (UI.log (Factory.after (builtins := Sample.builtins) Sample.generateQRCode
                  Sample.factory_profile Sample.factory_session Sample.factory_db))
    /\ JS.get "batch_ids" r = JS.Arr [JS.Str "B1"]
    /\ In step (Sample.factory_db Store.processing_steps)
    /\ JS.get "batch_id" step = JS.Str "B1"
    /\ JS.truthy (JS.get "completion_date" step) = false.
Proof.
  eexists. exists Sample.open_step.
  split; [vm_compute; right; right; left; reflexivity|].
  repeat split; vm_compute; auto.
Qed.


(** On the sample store the list holds the approved batch and not the
    pending one. *)
Example available_batches_sample :
  map (JS.get "id")
      (Factory.availableBatches
         (UI.ui (Factory.after (builtins := Sample.builtins) Sample.generateQRCode
                               Sample.factory_profile Sample.factory_session
                               Sample.factory_db)))
  = [JS.Str "B1"].
Proof. vm_compute. reflexivity. Qed.

(** ** Trimming *)

Section TrimFacts.
Import JS.

Lemma starts_with_split (w s : string) :
  starts_with s w = true -> s = (w ++ drop (String.length w) s)%string.
Proof.
  revert s. induction w as [|a w IH]; intros s H; [reflexivity|].
  destruct s as [|b s]; simpl in H; [discriminate|].
  apply andb_prop in H as [Hab H]. apply Ascii.eqb_eq in Hab as ->.
  simpl. f_equal. apply IH, H.
Qed.

Lemma starts_with_length (w s : string) :
  starts_with s w = true -> String.length w <= String.length s.
Proof.
  revert s. induction w as [|a w IH]; intros s H; [simpl; lia|].
  destruct s as [|b s]; simpl in H |- *; [discriminate|].
  apply andb_prop in H as [_ H]. apply IH in H. lia.
Qed.

Lemma starts_with_append (w s x : string) :
  starts_with s w = true -> starts_with (s ++ x) w = true.
Proof.
  revert s. induction w as [|a w IH]; intros s H; [reflexivity|].
  destruct s as [|b s]; simpl in H |- *; [discriminate|].
  apply andb_prop in H as [-> H]. apply IH, H.
Qed.

Lemma starts_with_both (w w' s : string) :
  starts_with s w = true -> starts_with s w' = true ->
  starts_with w' w = true \/ starts_with w w' = true.
Proof.
  revert w' s. induction w as [|a w IH]; intros w' s H H'; [left; reflexivity|].
  destruct w' as [|a' w']; [right; reflexivity|].
  destruct s as [|b s]; simpl in H, H' |- *; [discriminate|].
  apply andb_prop in H as [Hab H]. apply Ascii.eqb_eq in Hab as ->.
  apply andb_prop in H' as [Hab H']. apply Ascii.eqb_eq in Hab as ->.
  rewrite Ascii.eqb_refl. simpl. eapply IH; eassumption.
Qed.

(** Every white-space character takes one to three bytes. *)
Lemma white_space_lengths :
  Forall (fun w => 1 <= String.length w <= 3) white_space.
Proof. repeat constructor. Qed.

(** No white-space character is the start of another. *)
Lemma white_space_prefix_free :
  forallb (fun w => forallb (fun w' => implb (starts_with w' w) (w =? w')%string) white_space)
          white_space = true.
Proof. vm_compute. reflexivity. Qed.

Lemma leading_white_space_cases (s : string) :
  (leading_white_space s = 0 /\ forall w, In w white_space -> starts_with s w = false)
  \/ exists w, In w white_space /\ starts_with s w = true
               /\ leading_white_space s = String.length w
               /\ 1 <= String.length w <= 3.
Proof.
  unfold leading_white_space.
  destruct (find (starts_with s) white_space) as [w|] eqn:E.
  - right. apply find_some in E as [Hin Hp]. exists w. repeat split; try assumption;
      apply (proj1 (Forall_forall _ _) white_space_lengths w Hin).
  - left. split; [reflexivity|]. intros w Hin. exact (find_none _ _ E w Hin).
Qed.

Lemma leading_white_space_le (s : string) : leading_white_space s <= 3.
Proof.
  destruct (leading_white_space_cases s) as [[-> _]|[w [_ [_ [-> H]]]]]; lia.
Qed.

Lemma leading_white_space_length (s : string) : leading_white_space s <= String.length s.
Proof.
  destruct (leading_white_space_cases s) as [[-> _]|[w [_ [Hp [-> _]]]]]; [lia|].
  exact (starts_with_length _ _ Hp).
Qed.

Lemma trim_start_step (s : string) :
  trim_start s = match leading_white_space s with
                 | 0 => s
                 | n => trim_start (drop n s)
                 end.
Proof.
  destruct s as [|a r1]; [reflexivity|].
  pose proof (leading_white_space_le (String a r1)) as Hle.
  pose proof (leading_white_space_length (String a r1)) as Hlen.
  cbn [trim_start].
  destruct (leading_white_space (String a r1)) as [|[|[|[|n]]]]; try reflexivity; try lia.
  - destruct r1; [simpl in Hlen; lia|reflexivity].
  - destruct r1 as [|b [|c r3]]; simpl in Hlen; try lia; reflexivity.
Qed.

Lemma all_white_space_step (s : string) :
  s <> EmptyString ->
  all_white_space s = match leading_white_space s with
                      | 0 => false
                      | n => all_white_space (drop n s)
                      end.
Proof.
  destruct s as [|a r1]; [contradiction|intros _].
  pose proof (leading_white_space_le (String a r1)) as Hle.
  pose proof (leading_white_space_length (String a r1)) as Hlen.
  cbn [all_white_space].
  destruct (leading_white_space (String a r1)) as [|[|[|[|n]]]]; try reflexivity; try lia.
  - destruct r1; [simpl in Hlen; lia|reflexivity].
  - destruct r1 as [|b [|c r3]]; simpl in Hlen; try lia; reflexivity.
Qed.

Lemma drop_length (n : nat) (s : string) : String.length (drop n s) = String.length s - n.
Proof.
  revert s. induction n as [|n IH]; intros [|a s]; simpl; try reflexivity; try lia. apply IH.
Qed.

(** Induction along the white-space characters a string starts with. *)
Lemma white_space_ind (P : string -> Prop) :
  (forall s, (forall n, 0 < n -> s <> EmptyString -> P (drop n s)) -> P s) ->
  forall s, P s.
Proof.
  intros step s.
  assert (H : forall k t, String.length t <= k -> P t).
  { induction k as [|k IH]; intros t Hk; apply step; intros n Hn Ht.
    - destruct t; [contradiction|simpl in Hk; lia].
    - apply IH. rewrite drop_length. destruct t; [contradiction|].
      cbn [String.length] in *. lia. }
  exact (H _ s (le_n _)).
Qed.

Lemma leading_white_space_pos (s : string) :
  leading_white_space s <> 0 -> s <> EmptyString.
Proof. intros H ->. apply H. reflexivity. Qed.

Lemma trim_start_white_space (s : string) :
  all_white_space s = true -> trim_start s = EmptyString.
Proof.
  induction s as [s IH] using white_space_ind.
  destruct s as [|a r]; [reflexivity|].
  rewrite all_white_space_step, trim_start_step by discriminate.
  destruct (leading_white_space (String a r)) as [|n]; [discriminate|].
  apply IH; [lia|discriminate].
Qed.

Lemma leading_trim_start (s : string) : leading_white_space (trim_start s) = 0.
Proof.
  induction s as [s IH] using white_space_ind.
  rewrite trim_start_step.
  destruct (leading_white_space s) as [|n] eqn:E; [exact E|].
  apply IH; [lia|]. apply leading_white_space_pos. rewrite E. discriminate.
Qed.

Lemma trim_start_fixed (s : string) : leading_white_space s = 0 -> trim_start s = s.
Proof. intro H. rewrite trim_start_step, H. reflexivity. Qed.

Lemma all_white_space_leading (s : string) :
  all_white_space s = true -> s <> EmptyString -> leading_white_space s <> 0.
Proof.
  intros H Hs. rewrite all_white_space_step in H by exact Hs.
  destruct (leading_white_space s); [discriminate|discriminate].
Qed.

Lemma trim_end_split (s : string) :
  exists x, s = (trim_end s ++ x)%string /\ all_white_space x = true.
Proof.
  induction s as [|a r [x [IH Hx]]].
  - exists EmptyString. split; reflexivity.
  - cbn [trim_end]. destruct (all_white_space (String a r)) eqn:E.
    + exists (String a r). split; [reflexivity|exact E].
    + exists x. split; [simpl; f_equal; exact IH|exact Hx].
Qed.

Lemma leading_white_space_append (s x : string) :
  leading_white_space s <> 0 ->
  leading_white_space (s ++ x) = leading_white_space s.
Proof.
  intro H.
  destruct (leading_white_space_cases s) as [[E _]|[w [Hin [Hp [E _]]]]]; [contradiction|].
  destruct (leading_white_space_cases (s ++ x)) as [[_ Hnone]|[w' [Hin' [Hp' [E' _]]]]].
  - pose proof (starts_with_append _ _ x Hp) as Hpx.
    rewrite (Hnone w Hin) in Hpx. discriminate.
  - rewrite E, E'. f_equal.
    pose proof (starts_with_append _ _ x Hp) as Hpx.
    pose proof white_space_prefix_free as Hfree.
    rewrite forallb_forall in Hfree.
    destruct (starts_with_both _ _ _ Hp' Hpx) as [Hc|Hc].
    + pose proof (Hfree w' Hin') as Hw. rewrite forallb_forall in Hw.
      specialize (Hw w Hin). rewrite Hc in Hw. simpl in Hw. apply String.eqb_eq in Hw. exact Hw.
    + pose proof (Hfree w Hin) as Hw. rewrite forallb_forall in Hw.
      specialize (Hw w' Hin'). rewrite Hc in Hw. simpl in Hw. apply String.eqb_eq in Hw.
      symmetry. exact Hw.
Qed.

Lemma drop_append (n : nat) (s x : string) :
  n <= String.length s -> drop n (s ++ x) = (drop n s ++ x)%string.
Proof.
  revert s. induction n as [|n IH]; intros s H; [reflexivity|].
  destruct s as [|a s]; simpl in *; [lia|]. apply IH. lia.
Qed.

Lemma all_white_space_append (s x : string) :
  all_white_space s = true -> all_white_space x = true -> all_white_space (s ++ x) = true.
Proof.
  intros Hs Hx. induction s as [s IH] using white_space_ind.
  destruct s as [|a r]; [exact Hx|].
  pose proof (all_white_space_leading _ Hs ltac:(discriminate)) as Hl.
  rewrite all_white_space_step in Hs by discriminate.
  rewrite all_white_space_step, (leading_white_space_append _ x Hl) by discriminate.
  destruct (leading_white_space (String a r)) as [|n] eqn:E; [contradiction|].
  rewrite drop_append by (rewrite <- E; apply leading_white_space_length).
  apply IH; [lia|discriminate|exact Hs].
Qed.

Lemma trim_end_keeps (s : string) :
  all_white_space s = false -> all_white_space (trim_end s) = false.
Proof.
  intro H. destruct (trim_end_split s) as [x [Hs Hx]].
  destruct (all_white_space (trim_end s)) eqn:E; [|reflexivity].
  rewrite Hs, (all_white_space_append _ _ E Hx) in H. discriminate.
Qed.

Lemma trim_end_idempotent (s : string) : trim_end (trim_end s) = trim_end s.
Proof.
  induction s as [|a r IH]; [reflexivity|].
  cbn [trim_end]. destruct (all_white_space (String a r)) eqn:E; [reflexivity|].
  pose proof (trim_end_keeps _ E) as K. cbn [trim_end] in K. rewrite E in K.
  cbn [trim_end]. rewrite K, IH. reflexivity.
Qed.

Lemma leading_trim_end (s : string) :
  leading_white_space s = 0 -> leading_white_space (trim_end s) = 0.
Proof.
  intro H. destruct (trim_end_split s) as [x [Hs _]].
  destruct (leading_white_space (trim_end s)) as [|n] eqn:E; [reflexivity|].
  rewrite Hs, leading_white_space_append, E in H by (rewrite E; discriminate).
  discriminate.
Qed.

Lemma trim_idempotent (s : string) : trim (trim s) = trim s.
Proof.
  unfold trim.
  rewrite (trim_start_fixed (trim_end (trim_start s)))
    by apply leading_trim_end, leading_trim_start.
  apply trim_end_idempotent.
Qed.

Lemma trim_white_space (s : string) : all_white_space s = true -> trim s = EmptyString.
Proof.
  intro H. unfold trim. rewrite trim_start_white_space by exact H. reflexivity.
Qed.

Lemma all_white_space_trim_start (s : string) :
  all_white_space (trim_start s) = all_white_space s.
Proof.
  induction s as [s IH] using white_space_ind.
  destruct s as [|a r]; [reflexivity|].
  rewrite trim_start_step, (all_white_space_step (String a r)) by discriminate.
  destruct (leading_white_space (String a r)) as [|n] eqn:E.
  - rewrite all_white_space_step, E by discriminate. reflexivity.
  - apply IH; [lia|discriminate].
Qed.

Lemma white_space_all_white_space (w : string) :
  In w white_space -> all_white_space w = true.
Proof.
  intro H.
  assert (Hall : forallb all_white_space white_space = true) by (vm_compute; reflexivity).
  rewrite forallb_forall in Hall. exact (Hall w H).
Qed.

(** The texts of white space only are the sequences of white-space
    characters. *)
Lemma all_white_space_iff (s : string) :
  all_white_space s = true
  <-> exists characters,
        Forall (fun c => In c white_space) characters
        /\ s = fold_right append EmptyString characters.
Proof.
  split.
  - induction s as [s IH] using white_space_ind.
    destruct s as [|a r]; [exists []; split; [constructor|reflexivity]|].
    rewrite all_white_space_step by discriminate.
    destruct (leading_white_space_cases (String a r))
      as [[-> _]|[w [Hin [Hp [E Hlen]]]]]; [discriminate|].
    rewrite E. destruct (String.length w) as [|n] eqn:En; [lia|]. intro H.
    destruct (IH (S n) ltac:(lia) ltac:(discriminate) H) as [characters [Hall Hs]].
    exists (w :: characters). split; [constructor; assumption|].
    cbn [fold_right]. rewrite <- Hs, <- En. apply starts_with_split, Hp.
  - intros [characters [Hall ->]].
    induction Hall as [|c characters Hc _ IH]; [reflexivity|].
    cbn [fold_right]. apply all_white_space_append; [|exact IH].
    apply white_space_all_white_space, Hc.
Qed.

(** [trim] leaves nothing exactly of the texts that hold white space
    only. *)
Lemma trim_blank_iff (s : string) : trim s = EmptyString <-> all_white_space s = true.
Proof.
  split; [|apply trim_white_space].
  unfold trim. intro H. rewrite <- all_white_space_trim_start.
  destruct (trim_start s) as [|a r]; [reflexivity|].
  cbn [trim_end] in H. destruct (all_white_space (String a r)); [reflexivity|discriminate].
Qed.

End TrimFacts.

(** White space beyond ASCII is stripped as well: an ideographic space,
    a no-break space and a line separator around a code, and a text made
    of such characters only; the second byte of a two-byte letter is
    not mistaken for a no-break space. *)
Example trim_unicode_white_space :
  JS.trim (JS.utf8 12288 ++ JS.utf8 160 ++ "PROD_1" ++ JS.utf8 8232 ++ " ")%string
  = "PROD_1"
  /\ JS.all_white_space (JS.utf8 12288 ++ JS.utf8 65279 ++ JS.utf8 8232)%string = true
  /\ JS.trim (JS.utf8 224) = JS.utf8 224
  /\ JS.all_white_space (JS.utf8 224) = false.
Proof. repeat split; vm_compute; reflexivity. Qed.

(** ** The Consumer portal *)

Section ConsumerFacts.
Import JS UI Store Consumer.

(** C10. When the input is empty or holds white space only (any of the
    characters [trim] strips, see [JS.white_space_code_points]), the scan
    action raises the "Missing QR Code" toast and nothing else: no store
    call, no other effect, the store and the whole component state
    (trace data, error, loading, input) as they were. *)
Theorem scan_blank_input (rejected : table -> option exn) (w : world State) :
  all_white_space (qrCode (ui w)) = true ->
  let w' := scan rejected w in
  ui w' = ui w /\ db w' = db w /\ log w' = log w ++ [toast missing_toast].
Proof.
  intro H. unfold scan, scanQRCode.
  rewrite (trim_white_space _ H). simpl.
  destruct w as [s d l]. simpl. auto.
Qed.

End ConsumerFacts.

Lemma scan_blank_input_witness :
  let w := {| UI.ui := {| Consumer.qrCode :=
                            (" " ++ JS.utf8 12288 ++ JS.utf8 160)%string;
                          Consumer.traceData := None;
                          Consumer.loading := false;
                          Consumer.error := "earlier error" |};
              UI.db := Sample.factory_db;
              UI.log := [] |} in
  JS.all_white_space (Consumer.qrCode (UI.ui w)) = true
  /\ UI.ui (Consumer.scan (fun _ => None) w) = UI.ui w.
Proof.
  intro w. split; [reflexivity|].
  exact (proj1 (scan_blank_input (fun _ => None) w eq_refl)).
Defined.

(** ** The aggregator *)

Section AggregatorFacts.
Import JS UI Store Aggregator.


Lemma filter_none (f : row -> bool) (rows : list row) :
  (forall r, In r rows -> f r = false) -> List.filter f rows = [].
Proof.
  induction rows as [|r rows IH]; simpl; intro H.
  - reflexivity.
  - rewrite (H r (or_introl eq_refl)). apply IH. intros x Hx. apply H. right. exact Hx.
Qed.


End AggregatorFacts.

Section ResolveFacts.
Import JS UI Store Aggregator.

Lemma world_eta {S : Type} (w : world S) :
  {| ui := ui w; db := db w; log := log w ++ [] |} = w.
Proof. destruct w. simpl. rewrite app_nil_r. reflexivity. Qed.

(** An unknown token: the resolution answers [NotFound] after at most the
    product lookup, raising no toast and writing nothing. *)
Lemma getQRCodeData_not_found {S : Type} (token : string)
      (rejected : table -> option exn) (w : world S) :
  QR.decode token = QR.MalformedToken
  \/ (rejected products = None
      /\ forall p, In p (db w products) -> get "qr_code" p <> Str token) ->
  exists l,
    getQRCodeData token rejected w
    = (Done NotFound, {| ui := ui w; db := db w; log := log w ++ l |})
    /\ List.filter is_toast l = [] /\ List.filter is_write l = [].
Proof.
  intros [Hbad | [Hok Hnone]]; unfold getQRCodeData.
  - rewrite Hbad. exists []. rewrite world_eta. auto.
  - destruct (QR.decode token).
    + exists [store_call (select (product_query token) false)].
      unfold read. unfold_handler. simpl. rewrite Hok. simpl.
      unfold run_select. simpl.
      rewrite filter_none; [auto|].
      intros r Hr. simpl. rewrite andb_true_r.
      destruct (cell_is (get "qr_code" r) token) eqn:E; [|reflexivity].
      apply cell_is_true in E. destruct (Hnone r Hr E).
    + exists []. rewrite world_eta. auto.
Qed.

(** C2. A token that fails decoding and a token that is no Product's
    stored QR value both resolve to [NotFound] (for the second, provided
    the lookup itself is not rejected by the store), and the scan reports
    the two alike: the same error text, no trace data, loading off, and
    the one "QR Code not found" toast. *)
Theorem unknown_token_not_found (d : database) (rejected : table -> option exn)
        (token : string) :
  QR.decode token = QR.MalformedToken
  \/ (rejected products = None
      /\ forall p, In p (d products) -> get "qr_code" p <> Str token) ->
  resolve d rejected token = Done NotFound
  /\ forall st : Consumer.State,
      trim (Consumer.qrCode st) = token -> str_truthy token = true ->
      state_after (Consumer.scanQRCode rejected st) st d
      = {| Consumer.qrCode := Consumer.qrCode st;
           Consumer.traceData := None;
           Consumer.loading := false;
           Consumer.error := "NotFound" |}
      /\ List.filter is_toast (effects (Consumer.scanQRCode rejected st) st d)
         = [toast Consumer.not_found_toast].
Proof.
  intro H. split.
  - unfold resolve.
    destruct (getQRCodeData_not_found (S := unit) token rejected
                {| ui := tt; db := d; log := [] |} H) as [l [-> _]].
    reflexivity.
  - intros st Htrim Htruthy.
    unfold state_after, effects, run, Consumer.scanQRCode.
    rewrite Htrim, Htruthy.
    unfold Consumer.setLoading, Consumer.setError, Consumer.setTraceData.
    unfold_handler. cbn -[getQRCodeData].
    match goal with
    | |- context [getQRCodeData token rejected ?w] =>
        destruct (getQRCodeData_not_found token rejected w H) as [l [-> [Htoast _]]]
    end.
    cbn. split; [reflexivity|].
    rewrite filter_app, Htoast. reflexivity.
Qed.


End ResolveFacts.

Lemma unknown_token_not_found_witness :
  QR.decode "not a token" = QR.MalformedToken
  /\ Aggregator.resolve (Sample.trace_db ["B1"; "B2"]) Sample.no_rejection "not a token"
     = UI.Done Aggregator.NotFound.
Proof.
  split; [reflexivity|].
  exact (proj1 (unknown_token_not_found (Sample.trace_db ["B1"; "B2"])
                  Sample.no_rejection "not a token" (or_introl eq_refl))).
Defined.

(** A well-formed token that no product carries is answered the same. *)
Example unregistered_token_not_found :
  Aggregator.resolve (Sample.trace_db ["B1"; "B2"]) Sample.no_rejection
                     (Sample.token_of ["B9"])
  = UI.Done Aggregator.NotFound.
Proof. vm_compute. reflexivity. Qed.

Section TraceFacts.
Import JS UI Store Aggregator.



End TraceFacts.

(** The scenario of section 8: batches B1 and B2, quality tests for B1
    only (T3 belongs to a batch of no product). *)
Example resolve_scenario :
  match Aggregator.resolve (Sample.trace_db ["B1"; "B2"]) Sample.no_rejection
                           (Sample.token_of ["B1"; "B2"]) with
  | UI.Done data =>
      (option_map (map (JS.get "id")) (Aggregator.batches (Aggregator.trace data)),
       option_map (map (JS.get "id")) (Aggregator.qualityTests (Aggregator.trace data)))
  | UI.Thrown _ => (None, None)
  end
  = (Some [JS.Str "B1"; JS.Str "B2"], Some [JS.Str "T1"; JS.Str "T2"]).
Proof. vm_compute. reflexivity. Qed.


(** A Product whose [batch_ids] names batch B1 twice resolves to that
    batch twice, once for each entry. *)
Example resolve_repeated_entry :
  match Aggregator.resolve (Sample.trace_db ["B1"; "B1"]) Sample.no_rejection
                           (Sample.token_of ["B1"; "B1"]) with
  | UI.Done data =>
      option_map (map (JS.get "id")) (Aggregator.batches (Aggregator.trace data))
  | UI.Thrown _ => None
  end = Some [JS.Str "B1"; JS.Str "B1"].
Proof. vm_compute. reflexivity. Qed.

(** ** Local validation in the create actions *)

Section ValidationFacts.
Import JS UI Store.
Context {builtins : Builtins}.
Variable generateQRCode : value -> string.
Variable profile : option row.

(** C7. A Collection record submitted with an empty [quantity_kg] is
    rejected locally: [recordCollection] raises its validation toast and
    nothing else, so no store call is issued, and the form, the rest
    of the component state and the store stay as they were. *)
Theorem recordCollection_empty_quantity
        (result : exn + list row) (st : Collector.State) (d : database) :
  Collector.quantity_kg (Collector.collectionForm st) = "" ->
  effects (Collector.recordCollection result st) st d
  = [toast Collector.required_toast]
  /\ state_after (Collector.recordCollection result st) st d = st
  /\ db_after (Collector.recordCollection result st) st d = d.
Proof.
  intro H. unfold Collector.recordCollection. rewrite H.
  unfold effects, state_after, db_after, run.
  destruct (Collector.collector st), (Collector.location st);
    try rewrite orb_true_r; simpl; auto.
Qed.

(** The sibling checks of the Factory portal. *)
Lemma createProduct_required (now : N) (result : exn + list row)
      (st : Factory.State) (d : database) :
  Factory.product_name (Factory.productForm st) = ""
  \/ Factory.final_quantity (Factory.productForm st) = "" ->
  effects (Factory.createProduct generateQRCode profile now result st) st d
  = [toast Factory.required_toast].
Proof.
  unfold Factory.createProduct, effects, run.
  intros [H|H]; rewrite H; try rewrite orb_true_r; reflexivity.
Qed.

Lemma createProcessingStep_required (result : exn + list row)
      (st : Factory.State) (d : database) :
  Factory.selectedBatch st = None
  \/ Factory.process_type (Factory.processForm st) = ""
  \/ Factory.input_quantity_kg (Factory.processForm st) = "" ->
  effects (Factory.createProcessingStep profile result st) st d
  = [toast Factory.required_toast].
Proof.
  unfold Factory.createProcessingStep, effects, run.
  intros [H|[H|H]]; rewrite H; destruct (Factory.selectedBatch st);
    try rewrite orb_true_r; try discriminate; reflexivity.
Qed.

(** C6, on the Admin portal. [createHerb] has no local check: with every
    field of the herb form empty (the fields labelled "Botanical Name *"
    and "Local Name *" included) the first thing it does is to send the
    insert to the store. *)
Theorem createHerb_empty_form_inserts (result : exn + list row) (d : database) :
  hd_error (effects (Admin.createHerb result Admin.initial) Admin.initial d)
  = Some (store_call
            (insert herbs
               [[("botanical_name", Str ""); ("local_name", Str "");
                 ("plant_family", null); ("conservation_status", null);
                 ("approved_regions", null); ("medicinal_properties", null);
                 ("harvest_season", null)]]
               false)).
Proof.
  unfold Admin.createHerb, effects, run. unfold_handler.
  destruct result; reflexivity.
Qed.

End ValidationFacts.

Lemma recordCollection_empty_quantity_witness :
  let st := {| Collector.herbs := [];
               Collector.collectionEvents := [];
               Collector.collector := Some [("id", JS.Str "C1")];
               Collector.location := Some {| Collector.lat := JS.Dec 2661 (-2);
                                             Collector.lng := JS.Dec 7585 (-2) |};
               Collector.showCollectionForm := true;
               Collector.collectionForm :=
                 {| Collector.herb_id := "H1"; Collector.quantity_kg := "";
                    Collector.plant_part := "root"; Collector.harvest_season := "winter";
                    Collector.initial_condition := "fresh";
                    Collector.environmental_data := "";
                    Collector.storage_conditions := "" |};
               Collector.loading := false |} in
  Collector.quantity_kg (Collector.collectionForm st) = ""
  /\ UI.effects (Collector.recordCollection (builtins := Sample.builtins) (inr []) st)
                st Sample.factory_db
     = [UI.toast Collector.required_toast].
Proof.
  intro st. split; [reflexivity|].
  exact (proj1 (recordCollection_empty_quantity (builtins := Sample.builtins)
                  (inr []) st Sample.factory_db eq_refl)).
Defined.

(** ** Failure paths *)

Ltac unfold_portal :=
  unfold Portals.failed, Portals.operate, Portals.perform, Portals.perform_handler,
         Factory.createProcessingStep, Factory.createProduct, Factory.fetchData,
         Factory.parse_json,
         Factory.setProcessForm, Factory.setSelectedBatch, Factory.setProductForm,
         Factory.setShowProductForm, Factory.setAvailableBatches,
         Factory.setProcessingSteps, Factory.setLoading,
         Lab.updateTestResults, Lab.fetchQualityTests, Lab.setSelectedTest,
         Lab.setTestResults, Lab.setQualityTests, Lab.setLoading,
         Collector.createCollectorProfile, Collector.recordCollection,
         Collector.fetchData, Collector.getCurrentLocation, Collector.setHerbs,
         Collector.setCollectionEvents, Collector.setLocation, Collector.setLoading,
         Admin.fetchData, Admin.setUsers, Admin.setHerbs, Admin.setComplianceRules,
         Admin.setLoading,
         Collector.parse_json_or_null, Collector.parse_json,
         Collector.setCollector, Collector.setCollectionForm,
         Collector.setShowCollectionForm,
         Admin.createHerb, Admin.createComplianceRule, Admin.parse_json,
         Admin.setHerbForm, Admin.setShowHerbForm, Admin.setRuleForm,
         Admin.setShowRuleForm,
         Consumer.scanQRCode, Consumer.setLoading, Consumer.setError,
         Consumer.setTraceData,
         Aggregator.getQRCodeData, Aggregator.read,
         Auth.handleSubmit, Auth.setLoading in *.

Section FailureFacts.
Import JS UI Store Portals.
Context {builtins : Builtins}.
Variable generateQRCode : value -> string.

(** C5 (amended). A user action that fails (it raises a destructive
    toast: validation error, store error, malformed JSON, unknown token)
    leaves the component state as it was before the action in the
    Factory, Lab, Collector and Admin portals. A failed scan in the
    Consumer portal leaves the state as it was only for a blank input;
    otherwise it keeps the typed code, ends with loading off, clears the
    trace data and shows an error text. A failed sign-in or sign-up keeps
    the form and ends with loading off. In every case the action does
    nothing besides the requests it sent, toasts and console traces. *)
Theorem failed_action_screen (d : database) (a : action) :
  failed (perform generateQRCode d a) = true ->
  match a with
  | ScanQRCode _ st =>
      screen_after (perform generateQRCode d a) = ConsumerScreen st
      \/ exists e,
          screen_after (perform generateQRCode d a)
          = ConsumerScreen {| Consumer.qrCode := Consumer.qrCode st;
                              Consumer.traceData := None;
                              Consumer.loading := false;
                              Consumer.error := e |}
  | SubmitAuthForm _ st =>
      screen_after (perform generateQRCode d a)
      = AuthScreen {| Auth.isSignIn := Auth.isSignIn st;
                      Auth.loading := false;
                      Auth.formData := Auth.formData st |}
  | _ => screen_after (perform generateQRCode d a) = before a
  end
  /\ forallb (fun e => is_request e || is_notification e)
             (effects (perform generateQRCode d a)) = true.
Proof.
  destruct a; unfold_portal; unfold_handler; simpl;
    case_split; simpl;
    try discriminate; intros _; (split; [|reflexivity]);
    try reflexivity;
    try (destruct st; reflexivity);
    first [left; reflexivity | right; eexists; reflexivity].
Qed.

End FailureFacts.

Lemma failed_action_screen_witness :
  let a := Portals.CreateProduct Sample.factory_profile 1700000000000
             (inl Sample.store_down)
             {| Factory.availableBatches := [Sample.approved_batch];
                Factory.processingSteps := [Sample.done_step];
                Factory.selectedBatch := None;
                Factory.processForm := Factory.empty_process_form;
                Factory.productForm := Sample.product_form;
                Factory.showProductForm := true;
                Factory.loading := false |} in
  Portals.failed (Portals.perform (builtins := Sample.builtins) Sample.generateQRCode
                                  Sample.factory_db a) = true
  /\ Portals.screen_after
       (Portals.perform (builtins := Sample.builtins) Sample.generateQRCode
                        Sample.factory_db a)
     = Portals.before a.
Proof.
  intro a. split; [reflexivity|].
  exact (proj1 (failed_action_screen (builtins := Sample.builtins)
                  Sample.generateQRCode Sample.factory_db a eq_refl)).
Defined.

(** C5 as stated fails: scanning a code that is not registered, while a
    trace is on screen, is a failure after which the trace is gone and an
    error text is shown. *)
Lemma failed_scan_changes_screen :
  let a := Portals.ScanQRCode Sample.no_rejection Sample.consumer_state in
  let r := Portals.perform (builtins := Sample.builtins) Sample.generateQRCode
                           (Sample.trace_db ["B1"; "B2"]) a in
  Portals.failed r = true
  /\ Portals.screen_after r
     = Portals.ConsumerScreen {| Consumer.qrCode := "PROD_404";
                                 Consumer.traceData := None;
                                 Consumer.loading := false;
                                 Consumer.error := "NotFound" |}
  /\ Portals.screen_after r <> Portals.before a.
Proof.
  intros a r. split; [reflexivity|]. split; [reflexivity|].
  vm_compute. discriminate.
Qed.

(** ** Quality tests in the store *)

Section QualityTestFacts.
Import JS UI Store Portals.
Context {builtins : Builtins}.
Variable generateQRCode : value -> string.

Lemma Forall2_same {A : Type} (R : A -> A -> Prop) (l : list A) :
  (forall x, R x x) -> Forall2 R l l.
Proof. intro H. induction l; constructor; auto. Qed.

Lemma Forall2_chain {A : Type} (R : A -> A -> Prop) (l1 l2 l3 : list A) :
  (forall x y z, R x y -> R y z -> R x z) ->
  Forall2 R l1 l2 -> Forall2 R l2 l3 -> Forall2 R l1 l3.
Proof.
  intros Htrans H12. revert l3.
  induction H12 as [|x y l1 l2 Hxy _ IH]; intros l3 H23; inversion H23; subst.
  - constructor.
  - constructor; eauto.
Qed.

Lemma Forall2_map_r {A : Type} (R : A -> A -> Prop) (f : A -> A) (l : list A) :
  (forall x, R x (f x)) -> Forall2 R l (map f l).
Proof. intro H. induction l; simpl; constructor; auto. Qed.

Lemma get_results_patch (results : Lab.TestResults) (now : string) (r : row) :
  get "id" (assign r (Lab.results_patch results now)) = get "id" r
  /\ get "test_status" (assign r (Lab.results_patch results now)) = Str "completed"
  /\ get "completion_date" (assign r (Lab.results_patch results now)) = Str now
  /\ get "test_results" (assign r (Lab.results_patch results now))
     = Lab.results_object results.
Proof.
  unfold assign, Lab.results_patch. simpl.
  repeat split;
    repeat first [rewrite get_set_eq; reflexivity
                 | rewrite get_set_ne by discriminate];
    reflexivity.
Qed.

(** The same test, and completed if it was. *)
Lemma update_keeps_completed (results : Lab.TestResults) (now : string)
      (where_ : list filter) (d : database) :
  Forall2 (fun r r' =>
             get "id" r = get "id" r'
             /\ (get "test_status" r = Str "completed" ->
                 get "test_status" r' = Str "completed"))
          (d quality_tests)
          (run_update d quality_tests (Lab.results_patch results now) where_
                      quality_tests).
Proof.
  unfold run_update. cbn [table_eqb]. apply Forall2_map_r. intro r.
  destruct (matches_all where_ r); [|auto].
  destruct (get_results_patch results now r) as [Hid [Hstatus _]].
  rewrite Hid, Hstatus. auto.
Qed.

Lemma operate_keeps_completed (d : database) (o : operation) :
  Forall2 (fun r r' =>
             get "id" r = get "id" r'
             /\ (get "test_status" r = Str "completed" ->
                 get "test_status" r' = Str "completed"))
          (d quality_tests)
          (store_after (operate generateQRCode d o) quality_tests).
Proof.
  destruct o as [a| | | | |]; [destruct a|..];
    try (unfold_portal; unfold_handler; simpl; case_split; simpl;
         apply Forall2_same; auto; fail).
  unfold_portal. unfold_handler.
  destruct (Lab.selectedTest st) as [test|]; [|apply Forall2_same; auto].
  destruct rejected; cbn -[run_update Lab.results_patch];
    [apply Forall2_same; auto | apply update_keeps_completed].
Qed.

(** C8 (amended). The Lab portal's update of the selected test, when the
    store accepts it, sets [test_status] to 'completed', the
    [completion_date] and the results of every stored test with that id;
    and whatever operations of the portals follow, a stored test that is
    completed stays completed: none sets it back to 'pending'. *)
Theorem lab_update_completes (now : string) (st : Lab.State) (test : row)
        (ops : list operation) (d : database) :
  Lab.selectedTest st = Some test ->
  let d' := store_after (perform generateQRCode d (UpdateTestResults now None st)) in
  Forall2 (fun r r' =>
             if same_cell (get "id" r) (get "id" test)
             then get "id" r' = get "id" r
                  /\ get "test_status" r' = Str "completed"
                  /\ get "completion_date" r' = Str now
                  /\ get "test_results" r' = Lab.results_object (Lab.testResults st)
             else r' = r)
          (d quality_tests) (d' quality_tests)
  /\ Forall2 (fun r r' =>
                get "id" r = get "id" r'
                /\ (get "test_status" r = Str "completed" ->
                    get "test_status" r' = Str "completed"))
             (d' quality_tests)
             (store_after_all generateQRCode ops d' quality_tests).
Proof.
  intros Hsel d'. split.
  - subst d'. unfold_portal. unfold_handler. rewrite Hsel. simpl.
    unfold run_update. simpl. apply Forall2_map_r. intro r.
    rewrite andb_true_r.
    destruct (same_cell (get "id" r) (get "id" test)); [|reflexivity].
    apply get_results_patch.
  - generalize d'. clear. induction ops as [|o ops IH]; intro d; simpl.
    + apply Forall2_same. auto.
    + eapply Forall2_chain; [| apply operate_keeps_completed | apply IH].
      intros x y z [Hxy Hc] [Hyz Hc']. split; [congruence | auto].
Qed.

End QualityTestFacts.

Lemma lab_update_completes_witness :
  let st := {| Lab.qualityTests := [Sample.completed_test];
               Lab.selectedTest := Some Sample.completed_test;
               Lab.testResults := Lab.empty_results;
               Lab.loading := false |} in
  let now := "2024-03-01T10:00:00.000Z" in
  let d' := Portals.store_after
              (Portals.perform (builtins := Sample.builtins) Sample.generateQRCode
                               Sample.lab_db (Portals.UpdateTestResults now None st)) in
  Lab.selectedTest st = Some Sample.completed_test
  /\ Forall2 (fun r r' =>
                if Store.same_cell (JS.get "id" r) (JS.get "id" Sample.completed_test)
                then JS.get "id" r' = JS.get "id" r
                     /\ JS.get "test_status" r' = JS.Str "completed"
                     /\ JS.get "completion_date" r' = JS.Str now
                     /\ JS.get "test_results" r' = Lab.results_object (Lab.testResults st)
                else r' = r)
             (Sample.lab_db Store.quality_tests) (d' Store.quality_tests).
Proof.
  intros st now d'. split; [reflexivity|].
  exact (proj1 (lab_update_completes (builtins := Sample.builtins)
                  Sample.generateQRCode now st Sample.completed_test []
                  Sample.lab_db eq_refl)).
Defined.

(** C8 as stated fails: in the sample session the lab opens a test that
    is completed and saves the form again; the stored results and
    completion date are overwritten. *)
Lemma completed_test_results_overwritten :
  let d' := UI.db (Lab.after Sample.lab_profile Sample.lab_session Sample.lab_db) in
  map (JS.get "test_status") (Sample.lab_db Store.quality_tests) = [JS.Str "completed"]
  /\ map (JS.get "test_results") (Sample.lab_db Store.quality_tests)
     = [Lab.results_object Sample.earlier_results]
  /\ map (JS.get "test_results") (d' Store.quality_tests)
     = [Lab.results_object Lab.empty_results]
  /\ map (JS.get "test_results") (d' Store.quality_tests)
     <> map (JS.get "test_results") (Sample.lab_db Store.quality_tests).
Proof.
  intro d'. repeat split; try (vm_compute; reflexivity).
  vm_compute. discriminate.
Qed.

(* ================================================================== *)
(** * Further properties of the handlers *)
(* ================================================================== *)

(** ** The overview of the Admin portal *)

Section OverviewFacts.
Import JS Admin.

Lemma total_count_role (role : string) (acc : list (string * nat)) :
  total (count_role role acc) = S (total acc).
Proof.
  induction acc as [|[k n] acc IH]; simpl.
  - reflexivity.
  - destruct (k =? role); simpl; [lia | rewrite IH; lia].
Qed.

Lemma count_of_count_role (role k : string) (acc : list (string * nat)) :
  count_of k (count_role role acc)
  = if role =? k then S (count_of k acc) else count_of k acc.
Proof.
  unfold count_of. induction acc as [|[k' n] acc IH]; simpl.
  - destruct (String.eqb_spec role k); reflexivity.
  - destruct (String.eqb_spec k' role) as [->|Hne]; simpl.
    + destruct (String.eqb_spec role k); simpl; [lia | reflexivity].
    + destruct (String.eqb_spec k' k) as [->|Hne'].
      * destruct (String.eqb_spec role k); [congruence | reflexivity].
      * exact IH.
Qed.

Lemma keys_count_role (role k : string) (acc : list (string * nat)) :
  In k (map fst (count_role role acc)) <-> k = role \/ In k (map fst acc).
Proof.
  induction acc as [|[k' n] acc IH]; simpl.
  - intuition.
  - destruct (String.eqb_spec k' role) as [->|Hne]; simpl; [intuition|].
    rewrite IH. intuition.
Qed.

Lemma NoDup_count_role (role : string) (acc : list (string * nat)) :
  NoDup (map fst acc) -> NoDup (map fst (count_role role acc)).
Proof.
  induction acc as [|[k n] acc IH]; simpl; intro H.
  - repeat constructor. intros [].
  - apply NoDup_cons_iff in H as [Hk Hacc].
    destruct (String.eqb_spec k role) as [->|Hne]; simpl.
    + constructor; assumption.
    + constructor; [|exact (IH Hacc)].
      rewrite keys_count_role. intros [->|Hin]; [congruence | contradiction].
Qed.

Lemma positive_count_role (role : string) (acc : list (string * nat)) :
  Forall (fun kn => 1 <= snd kn) acc ->
  Forall (fun kn => 1 <= snd kn) (count_role role acc).
Proof.
  induction 1 as [|[k n] acc Hn Hacc IH]; simpl.
  - repeat constructor.
  - destruct (k =? role); constructor; simpl in *; try lia; assumption.
Qed.

Lemma count_roles_spec (users : list row) (acc stats : list (string * nat)) :
  count_roles users acc = Some stats ->
  total stats = List.length users + total acc
  /\ (NoDup (map fst acc) -> NoDup (map fst stats))
  /\ (Forall (fun kn => 1 <= snd kn) acc -> Forall (fun kn => 1 <= snd kn) stats)
  /\ forall k, count_of k stats
               = List.length (List.filter
                                (fun u => match role_key u with
                                          | Some r => r =? k
                                          | None => false
                                          end) users)
                 + count_of k acc.
Proof.
  revert acc. induction users as [|u users IH]; simpl; intros acc H.
  - injection H as <-. auto.
  - destruct (role_key u) as [role|]; [|discriminate].
    destruct (IH _ H) as [Htotal [Hnodup [Hpos Hcount]]].
    rewrite total_count_role in Htotal.
    repeat split.
    + lia.
    + intro Hacc. apply Hnodup, NoDup_count_role, Hacc.
    + intro Hacc. apply Hpos, positive_count_role, Hacc.
    + intro k. rewrite Hcount, count_of_count_role.
      destruct (role =? k); simpl; lia.
Qed.

(** The overview adds up: whenever the role counts are the plain ones,
    they sum to [totalUsers], every role is listed once with a count of
    at least one, and the count of a role is the number of users with
    that role. *)
Theorem overview_adds_up (st : State) (stats : Stats) :
  getOverviewStats st = Some stats ->
  total (roleStats stats) = totalUsers stats
  /\ totalUsers stats = List.length (users st)
  /\ NoDup (map fst (roleStats stats))
  /\ Forall (fun kn => 1 <= snd kn) (roleStats stats)
  /\ forall k, count_of k (roleStats stats)
               = List.length (List.filter
                                (fun u => match role_key u with
                                          | Some r => r =? k
                                          | None => false
                                          end) (users st)).
Proof.
  unfold getOverviewStats.
  destruct (count_roles (users st) []) as [acc|] eqn:E; [|discriminate].
  intro H. injection H as <-. simpl.
  destruct (count_roles_spec _ _ _ E) as [Htotal [Hnodup [Hpos Hcount]]].
  simpl in Htotal. repeat split.
  - lia.
  - apply Hnodup. constructor.
  - apply Hpos. constructor.
  - intro k. rewrite Hcount. unfold count_of. simpl. lia.
Qed.

End OverviewFacts.

Lemma overview_adds_up_witness :
  let stats := {| Admin.totalUsers := 3; Admin.totalHerbs := 0; Admin.totalRules := 0;
                  Admin.roleStats := [("farmer", 2); ("lab", 1)] |} in
  Admin.getOverviewStats Sample.admin_state = Some stats
  /\ Admin.total (Admin.roleStats stats) = Admin.totalUsers stats.
Proof.
  intro stats.
  assert (H : Admin.getOverviewStats Sample.admin_state = Some stats) by reflexivity.
  split; [exact H|].
  exact (proj1 (overview_adds_up Sample.admin_state stats H)).
Defined.

(** ** Comma-separated fields *)

Section CommaFacts.
Import JS.



End CommaFacts.

(** ** More on the scan *)

Section ScanFacts.
Import JS UI Store Consumer.

(** The resolution reads the store and the token only: on any component
    it answers the same and logs the same calls, and leaves the component
    state and the store alone. *)
Lemma getQRCodeData_frame (token : string) (rejected : table -> option exn)
      (d : database) :
  exists (answer : outcome Aggregator.QRCodeData) (calls : list effect),
    List.filter is_write calls = []
    /\ List.filter is_toast calls = []
    /\ forall (S : Type) (w : world S),
        db w = d ->
        Aggregator.getQRCodeData token rejected w
        = (answer, {| ui := ui w; db := db w; log := log w ++ calls |}).
Proof.
  exists (fst (Aggregator.getQRCodeData (S := unit) token rejected
                 {| ui := tt; db := d; log := [] |})).
  exists (log (snd (Aggregator.getQRCodeData (S := unit) token rejected
                      {| ui := tt; db := d; log := [] |}))).
  unfold Aggregator.getQRCodeData, Aggregator.read. unfold_handler.
  repeat split.
  - case_split; reflexivity.
  - case_split; reflexivity.
  - intros S w <-. destruct w as [s d0 l]. simpl.
    case_split; simpl; rewrite <- ?app_assoc, ?app_nil_r; reflexivity.
Qed.

(** White space around the typed code does not matter: scanning the code
    as typed and scanning it trimmed raise the same effects (the same
    store calls, the same toast) and end with the same trace data, error
    text and loading flag. *)
Theorem scan_ignores_surrounding_white_space
        (rejected : table -> option exn) (st : State) (d : database) :
  let st' := {| qrCode := trim (qrCode st); traceData := traceData st;
                loading := loading st; error := error st |} in
  effects (scanQRCode rejected st') st' d = effects (scanQRCode rejected st) st d
  /\ traceData (state_after (scanQRCode rejected st') st' d)
     = traceData (state_after (scanQRCode rejected st) st d)
  /\ error (state_after (scanQRCode rejected st') st' d)
     = error (state_after (scanQRCode rejected st) st d)
  /\ loading (state_after (scanQRCode rejected st') st' d)
     = loading (state_after (scanQRCode rejected st) st d).
Proof.
  intro st'. unfold scanQRCode. subst st'. cbn [qrCode].
  rewrite trim_idempotent.
  destruct (getQRCodeData_frame (trim (qrCode st)) rejected d)
    as [answer [calls [_ [_ Hframe]]]].
  unfold effects, state_after, run, setLoading, setError, setTraceData.
  destruct (str_truthy (trim (qrCode st))); cbn [negb]; [|simpl; auto].
  unfold_handler. cbn -[Aggregator.getQRCodeData].
  rewrite !Hframe by reflexivity.
  destruct answer as [data|e]; cbn; [|auto].
  destruct (Aggregator.error data) as [e|]; [destruct (str_truthy e)|]; cbn; auto.
Qed.

Lemma no_toast_no_success (l : list effect) :
  List.filter is_toast l = [] -> existsb is_success_toast l = false.
Proof.
  induction l as [|e l IH]; [reflexivity|].
  destruct e; simpl; try exact IH. discriminate.
Qed.

(** What the scan runs for a non-blank code is the resolution of the
    trimmed code on the store as it is. *)
Lemma getQRCodeData_resolve {S : Type} (token : string) (rejected : table -> option exn)
      (w : world S) :
  exists calls,
    List.filter is_write calls = []
    /\ List.filter is_toast calls = []
    /\ Aggregator.getQRCodeData token rejected w
       = (Aggregator.resolve (db w) rejected token,
          {| ui := ui w; db := db w; log := log w ++ calls |}).
Proof.
  destruct (getQRCodeData_frame token rejected (db w))
    as [answer [calls [Hw [Ht Hframe]]]].
  exists calls. split; [exact Hw|]. split; [exact Ht|].
  unfold Aggregator.resolve.
  rewrite (Hframe unit {| ui := tt; db := db w; log := [] |} eq_refl).
  apply Hframe. reflexivity.
Qed.


End ScanFacts.


(** ** What the operations send to the store *)

Ltac run_operation :=
  unfold_portal; unfold_handler; simpl; case_split; simpl.

Ltac in_cases H :=
  simpl in H;
  repeat (destruct H as [H|H]; [try discriminate H; try (injection H as <-)|]);
  try contradiction.

Section TrafficFacts.
Import JS UI Store Portals.
Context {builtins : Builtins}.
Variable generateQRCode : value -> string.

(** Every operation sends at most one write to the store, and the
    fetches, the location request, the sign-in form and the scan send
    none. *)
Theorem one_write_per_operation (d : database) (o : operation) :
  List.length (List.filter is_write (effects (operate generateQRCode d o))) <= 1
  /\ match o with
     | User (ScanQRCode _ _) | User (SubmitAuthForm _ _)
     | FactoryFetch _ _ _ _ | LabFetch _ _ _ | CollectorFetch _ _ _ _ _
     | CollectorLocate _ _ | AdminFetch _ _ _ _ =>
         List.filter is_write (effects (operate generateQRCode d o)) = []
     | _ => True
     end.
Proof.
  destruct o as [a| | | | |]; [destruct a|..]; run_operation; auto.
Qed.

(** Every operation raises at most one toast by itself: a handler up to
    the point where it returns, and a fetch, whether on mount or asked
    for by a handler that succeeded. A fetch raises one exactly when one
    of its queries is rejected, so a successful action can be followed by
    the failure toast of its refetch. *)
Theorem one_toast_per_operation (d : database) (o : operation) :
  List.length (List.filter is_toast (effects (operate generateQRCode d o))) <= 1
  /\ match o with
     | FactoryFetch _ r1 r2 _ =>
         List.filter is_toast (effects (operate generateQRCode d o))
         = match r1, r2 with
           | None, None => []
           | _, _ => [toast Factory.fetch_failed_toast]
           end
     | LabFetch _ r _ =>
         List.filter is_toast (effects (operate generateQRCode d o))
         = match r with
           | None => []
           | Some _ => [toast Lab.fetch_failed_toast]
           end
     | AdminFetch r1 r2 r3 _ =>
         List.filter is_toast (effects (operate generateQRCode d o))
         = match r1, r2, r3 with
           | None, None, None => []
           | _, _, _ => [toast Admin.fetch_failed_toast]
           end
     | _ => True
     end.
Proof.
  destruct o as [a| | | | |]; [destruct a|..]; run_operation; auto.
Qed.

(** The only writes any operation sends: single-row inserts into
    [processing_steps], [products], [collectors], [collection_events],
    [herbs] and [compliance_rules], and updates of [quality_tests] that
    set the status to 'completed'. Nothing is ever written to [batches]
    or [profiles], and no status other than 'completed' is ever written. *)
Theorem writes_sent (d : database) (o : operation) (c : call) :
  In (store_call c) (effects (operate generateQRCode d o)) ->
  match c with
  | select _ _ => True
  | insert t rows _ =>
      List.length rows = 1
      /\ In t [processing_steps; products; collectors; collection_events;
               herbs; compliance_rules]
  | update t patch _ =>
      t = quality_tests /\ get "test_status" patch = Str "completed"
  end.
Proof.
  match goal with |- _ -> ?concl => set (P := concl) end.
  destruct o as [a| | | | |]; [destruct a|..]; run_operation;
    intro H; in_cases H; subst P; simpl; auto 10.
Qed.

End TrafficFacts.

(** A herb is created and the refetch that follows is rejected: the
    success toast of the handler, then the failure toast of the fetch. *)
Example success_then_failed_refetch :
  let created := Portals.operate (builtins := Sample.builtins) Sample.generateQRCode
                   Sample.herbs_db
                   (Portals.User (Portals.CreateHerb (inr []) Sample.admin_state)) in
  let refetched :=
    match Portals.screen_after created with
    | Portals.AdminScreen st =>
        Portals.effects
          (Portals.operate (builtins := Sample.builtins) Sample.generateQRCode
             (Portals.store_after created)
             (Portals.AdminFetch (Some Sample.store_down) None None st))
    | _ => []
    end in
  List.filter UI.is_toast (Portals.effects created ++ refetched)
  = [UI.toast Admin.herb_added_toast; UI.toast Admin.fetch_failed_toast].
Proof. vm_compute. reflexivity. Qed.

Lemma writes_sent_witness :
  let o := Portals.User
             (Portals.CreateHerb (inr []) Sample.admin_state) in
  let c := Store.insert Store.herbs [Admin.herb_row Admin.empty_herb_form] false in
  In (UI.store_call c)
     (Portals.effects (Portals.operate (builtins := Sample.builtins)
                                       Sample.generateQRCode Sample.lab_db o))
  /\ List.length [Admin.herb_row Admin.empty_herb_form] = 1.
Proof.
  intros o c.
  assert (H : In (UI.store_call c)
                 (Portals.effects (Portals.operate (builtins := Sample.builtins)
                                     Sample.generateQRCode Sample.lab_db o)))
    by (left; reflexivity).
  split; [exact H|].
  exact (proj1 (writes_sent (builtins := Sample.builtins) Sample.generateQRCode
                  Sample.lab_db o c H)).
Defined.

(** ** Success paths *)

Section SuccessFacts.
Import JS UI Store Portals.
Context {builtins : Builtins}.
Variable generateQRCode : value -> string.

(** A success toast is raised only when the store accepted the write (for
    the scan: when the resolution answered without an error text): then,
    at the point where the handler returns (the refetch it may have asked
    for has not been answered yet), the stored rows are in the store, the
    form of the action is reset and closed (the Lab selection cleared,
    the collector profile set, the resolved trace shown), and the rest
    of the component state is as the handler found it. The sign-in form
    never raises a success toast. *)
Theorem succeeded_action (d : database) (a : action) :
  succeeded (perform generateQRCode d a) = true ->
  match a with
  | CreateProcessingStep _ result st =>
      exists stored,
        result = inr stored
        /\ store_after (perform generateQRCode d a)
           = run_insert d processing_steps stored
        /\ screen_after (perform generateQRCode d a)
           = FactoryScreen
               {| Factory.availableBatches := Factory.availableBatches st;
                  Factory.processingSteps := Factory.processingSteps st;
                  Factory.selectedBatch := None;
                  Factory.processForm := Factory.empty_process_form;
                  Factory.productForm := Factory.productForm st;
                  Factory.showProductForm := Factory.showProductForm st;
                  Factory.loading := Factory.loading st |}
  | CreateProduct _ _ result st =>
      exists stored,
        result = inr stored
        /\ store_after (perform generateQRCode d a) = run_insert d products stored
        /\ screen_after (perform generateQRCode d a)
           = FactoryScreen
               {| Factory.availableBatches := Factory.availableBatches st;
                  Factory.processingSteps := Factory.processingSteps st;
                  Factory.selectedBatch := Factory.selectedBatch st;
                  Factory.processForm := Factory.processForm st;
                  Factory.productForm := Factory.empty_product_form;
                  Factory.showProductForm := false;
                  Factory.loading := Factory.loading st |}
  | UpdateTestResults now rejected st =>
      exists test,
        rejected = None /\ Lab.selectedTest st = Some test
        /\ store_after (perform generateQRCode d a)
           = run_update d quality_tests (Lab.results_patch (Lab.testResults st) now)
                        [eq_filter "id" (get "id" test)]
        /\ screen_after (perform generateQRCode d a)
           = LabScreen {| Lab.qualityTests := Lab.qualityTests st;
                          Lab.selectedTest := None;
                          Lab.testResults := Lab.empty_results;
                          Lab.loading := Lab.loading st |}
  | CreateCollectorProfile _ result st =>
      exists data,
        result = inr [data]
        /\ store_after (perform generateQRCode d a) = run_insert d collectors [data]
        /\ screen_after (perform generateQRCode d a)
           = CollectorScreen
               {| Collector.herbs := Collector.herbs st;
                  Collector.collectionEvents := Collector.collectionEvents st;
                  Collector.collector := Some data;
                  Collector.location := Collector.location st;
                  Collector.showCollectionForm := Collector.showCollectionForm st;
                  Collector.collectionForm := Collector.collectionForm st;
                  Collector.loading := Collector.loading st |}
  | RecordCollection result st =>
      exists stored,
        result = inr stored
        /\ store_after (perform generateQRCode d a)
           = run_insert d collection_events stored
        /\ screen_after (perform generateQRCode d a)
           = CollectorScreen
               {| Collector.herbs := Collector.herbs st;
                  Collector.collectionEvents := Collector.collectionEvents st;
                  Collector.collector := Collector.collector st;
                  Collector.location := Collector.location st;
                  Collector.showCollectionForm := false;
                  Collector.collectionForm := Collector.empty_form;
                  Collector.loading := Collector.loading st |}
  | CreateHerb result st =>
      exists stored,
        result = inr stored
        /\ store_after (perform generateQRCode d a) = run_insert d herbs stored
        /\ screen_after (perform generateQRCode d a)
           = AdminScreen
               {| Admin.users := Admin.users st; Admin.herbs := Admin.herbs st;
                  Admin.complianceRules := Admin.complianceRules st;
                  Admin.activeTab := Admin.activeTab st;
                  Admin.loading := Admin.loading st;
                  Admin.showHerbForm := false;
                  Admin.showRuleForm := Admin.showRuleForm st;
                  Admin.herbForm := Admin.empty_herb_form;
                  Admin.ruleForm := Admin.ruleForm st |}
  | CreateComplianceRule result st =>
      exists stored,
        result = inr stored
        /\ store_after (perform generateQRCode d a)
           = run_insert d compliance_rules stored
        /\ screen_after (perform generateQRCode d a)
           = AdminScreen
               {| Admin.users := Admin.users st; Admin.herbs := Admin.herbs st;
                  Admin.complianceRules := Admin.complianceRules st;
                  Admin.activeTab := Admin.activeTab st;
                  Admin.loading := Admin.loading st;
                  Admin.showHerbForm := Admin.showHerbForm st;
                  Admin.showRuleForm := false;
                  Admin.herbForm := Admin.herbForm st;
                  Admin.ruleForm := Admin.empty_rule_form |}
  | ScanQRCode rejected st =>
      exists data,
        Aggregator.resolve d rejected (trim (Consumer.qrCode st)) = Done data
        /\ (Aggregator.error data = None \/ Aggregator.error data = Some EmptyString)
        /\ store_after (perform generateQRCode d a) = d
        /\ screen_after (perform generateQRCode d a)
           = ConsumerScreen {| Consumer.qrCode := Consumer.qrCode st;
                               Consumer.traceData := Some (Aggregator.trace data);
                               Consumer.loading := false;
                               Consumer.error := "" |}
  | SubmitAuthForm _ _ => False
  end.
Proof.
  destruct a;
    try (run_operation; try discriminate; intros _;
         eexists; repeat split; first [reflexivity | congruence]; fail).
  (* the scan *)
  - unfold perform, perform_handler, succeeded, Consumer.scanQRCode. cbn [effects].
    unfold run, Consumer.setLoading, Consumer.setError, Consumer.setTraceData.
    destruct (str_truthy (trim (Consumer.qrCode st))); cbn [negb];
      [|unfold_handler; simpl; discriminate].
    unfold_handler. cbn -[Aggregator.getQRCodeData Aggregator.resolve].
    match goal with
    | |- context [Aggregator.getQRCodeData ?token rejected ?w] =>
        destruct (getQRCodeData_resolve token rejected w) as [calls [_ [Htoast ->]]]
    end.
    apply no_toast_no_success in Htoast.
    cbn -[Aggregator.resolve].
    destruct (Aggregator.resolve d rejected (trim (Consumer.qrCode st))) as [data|e];
      cbn -[Aggregator.resolve].
    + destruct (Aggregator.error data) as [e|] eqn:Ee;
        [destruct (str_truthy e) eqn:Et|]; cbn;
        rewrite ?existsb_app, ?Htoast; cbn; try discriminate; intros _;
        exists data; repeat split; auto.
      right. apply negb_false_iff, String.eqb_eq in Et. subst e. exact Ee.
    + rewrite ?existsb_app, ?Htoast. cbn. discriminate.
Qed.

(** A successful create in the Factory (processing step), Collector
    (collection) and Admin portals and a successful Lab update ask for a
    refetch; creating a product or a collector profile does not. *)
Theorem refetch_after_success (d : database) (a : action) :
  succeeded (perform generateQRCode d a) = true ->
  existsb (fun e => match e with spawn _ => true | _ => false end)
          (effects (perform generateQRCode d a))
  = match a with
    | CreateProduct _ _ _ _ | CreateCollectorProfile _ _ _ | ScanQRCode _ _
    | SubmitAuthForm _ _ => false
    | _ => true
    end.
Proof.
  destruct a; run_operation; try discriminate; reflexivity.
Qed.

End SuccessFacts.

(** ** When a write is sent *)

Section GuardFacts.
Import JS UI Store Portals.
Context {builtins : Builtins}.
Variable generateQRCode : value -> string.

(** A user action sends its write to the store exactly when its local
    guard passes and every JSON field it parses is well formed; whether
    the store will accept the write plays no part. The Factory and
    Collector forms guard their required fields, the Lab update needs a
    selected test, [createComplianceRule] only needs its parameters to
    parse, and [createHerb] and [createCollectorProfile] always send. The
    scan and the sign-in form never write. *)
Theorem write_sent_iff (d : database) (a : action) :
  existsb is_write (effects (perform generateQRCode d a))
  = match a with
    | CreateProcessingStep _ _ st =>
        match Factory.selectedBatch st with
        | Some _ =>
            negb (negb (str_truthy (Factory.process_type (Factory.processForm st)))
                  || negb (str_truthy (Factory.input_quantity_kg (Factory.processForm st))))
            && parses (str_or (Factory.process_parameters (Factory.processForm st)) "{}")
            && parses (str_or (Factory.process_conditions (Factory.processForm st)) "{}")
        | None => false
        end
    | CreateProduct _ _ _ st =>
        negb (negb (str_truthy (Factory.product_name (Factory.productForm st)))
              || negb (str_truthy (Factory.final_quantity (Factory.productForm st))))
        && parses (str_or (Factory.formulation_details (Factory.productForm st)) "{}")
    | UpdateTestResults _ _ st =>
        match Lab.selectedTest st with Some _ => true | None => false end
    | CreateCollectorProfile _ _ _ => true
    | RecordCollection _ st =>
        match Collector.collector st, Collector.location st with
        | Some _, Some _ =>
            negb (negb (str_truthy (Collector.herb_id (Collector.collectionForm st)))
                  || negb (str_truthy (Collector.quantity_kg (Collector.collectionForm st))))
            && (if str_truthy (Collector.environmental_data (Collector.collectionForm st))
                then parses (Collector.environmental_data (Collector.collectionForm st))
                else true)
            && (if str_truthy (Collector.storage_conditions (Collector.collectionForm st))
                then parses (Collector.storage_conditions (Collector.collectionForm st))
                else true)
        | _, _ => false
        end
    | CreateHerb _ _ => true
    | CreateComplianceRule _ st =>
        parses (Admin.rule_parameters (Admin.ruleForm st))
    | ScanQRCode _ _ | SubmitAuthForm _ _ => false
    end.
Proof.
  destruct a; unfold parses; run_operation; reflexivity.
Qed.

(** The sign-in form: the auth provider is called unless it is a sign-up
    without a role; a toast is raised exactly when the provider answered
    with an error or the role is missing; and the form always ends with
    loading off and its fields as typed. *)
Theorem handleSubmit_outcome (auth_error : option exn) (st : Auth.State) (d : database) :
  existsb is_request (UI.effects (Auth.handleSubmit auth_error st) st d)
  = (Auth.isSignIn st || str_truthy (Auth.role (Auth.formData st)))
  /\ existsb is_toast (UI.effects (Auth.handleSubmit auth_error st) st d)
     = (if Auth.isSignIn st || str_truthy (Auth.role (Auth.formData st))
        then match auth_error with Some _ => true | None => false end
        else true)
  /\ UI.state_after (Auth.handleSubmit auth_error st) st d
     = {| Auth.isSignIn := Auth.isSignIn st; Auth.loading := false;
          Auth.formData := Auth.formData st |}.
Proof.
  unfold Auth.handleSubmit, Auth.setLoading. unfold_handler. simpl.
  destruct (Auth.isSignIn st) eqn:Esign,
           (str_truthy (Auth.role (Auth.formData st))) eqn:Erole,
           auth_error; simpl; rewrite ?Esign, ?Erole; simpl;
    repeat split; reflexivity.
Qed.

End GuardFacts.

(** ** Sessions of the Factory portal *)

Section FactorySessionFacts.
Import JS UI Store Factory.
Context {builtins : Builtins}.
Variable generateQRCode : value -> string.
Variable profile : option row.

Lemma own_steps_query_rows (d : database) (step : row) :
  In step (run_select d (own_steps_query profile)) ->
  same_cell (get "processor_id" step) (opt_get "id" profile) = true.
Proof.
  intro Hin. apply in_run_select in Hin as [r [_ [Hm ->]]].
  rewrite get_expand_all.
  - simpl in Hm. rewrite andb_true_r in Hm. exact Hm.
  - repeat constructor. simpl. discriminate.
Qed.

Lemma in_snoc {A : Type} (x a : A) (l : list A) :
  In x (l ++ [a]) <-> In x l \/ a = x.
Proof. rewrite in_app_iff. simpl. tauto. Qed.

(** One event keeps the invariant, for any larger record of what the
    store has answered that includes the answer to this event when it is
    an answered fetch. *)
Lemma handle_session (listed loaded listed' loaded' : list row -> Prop)
      (e : event) (w : world State) :
  (forall l, listed l -> listed' l) ->
  (forall l, loaded l -> loaded' l) ->
  (e = FetchData None None ->
   listed' (run_select (db w) approved_batches_query)
   /\ loaded' (run_select (db w) (own_steps_query profile))) ->
  session_invariant listed loaded profile w ->
  session_invariant listed' loaded' profile (handle generateQRCode profile e w).
Proof.
  intros Hlisted Hloaded Hfetch (Havail & Hsteps & Hsel & Hlog1 & Hlog2).
  assert (Havail' : availableBatches (ui w) = [] \/ listed' (availableBatches (ui w)))
    by (destruct Havail; auto).
  assert (Hsteps' : processingSteps (ui w) = [] \/ loaded' (processingSteps (ui w)))
    by (destruct Hsteps; auto).
  assert (Hsel' : forall b, selectedBatch (ui w) = Some b ->
                            exists l, listed' l /\ In b l).
  { intros b Hb. destruct (Hsel b Hb) as [l [Hl Hin]]. eauto. }
  assert (Hlog1' : forall rows returning,
             In (store_call (Store.insert processing_steps rows returning)) (log w) ->
             step_sent listed' profile rows).
  { intros rows ret H. destruct (Hlog1 rows ret H) as (l & b & step & Hl & Hrest).
    exists l, b, step. split; [auto|exact Hrest]. }
  assert (Hlog2' : forall rows returning,
             In (store_call (Store.insert products rows returning)) (log w) ->
             product_sent loaded' rows).
  { intros rows ret H. destruct (Hlog2 rows ret H) as (steps & r & [Hl|Hl] & Hrest);
      exists steps, r; (split; [auto|exact Hrest]). }
  clear Havail Hsteps Hsel Hlog1 Hlog2 Hlisted Hloaded.
  destruct w as [s d l]. simpl in *.
  destruct e; unfold session_invariant, handle; simpl.
  - (* fetchData *)
    unfold fetchData, setAvailableBatches, setProcessingSteps, setLoading.
    unfold_handler.
    destruct batches_rejected, steps_rejected; simpl;
      try (destruct (Hfetch eq_refl) as [Hb Hs]);
      (repeat split; try assumption; try (right; assumption);
       intros rows ret H; rewrite ?in_snoc in H;
       repeat (destruct H as [H|H]; try discriminate); eauto).
  - (* a click on a listed batch *)
    destruct (nth_error (availableBatches s) index) as [b|] eqn:E; simpl;
      repeat split; try assumption.
    intros b' Hb'. injection Hb' as <-.
    apply nth_error_In in E.
    destruct Havail' as [Hnil|Hl]; [rewrite Hnil in E; destruct E|eauto].
  - repeat split; try assumption. discriminate.
  - repeat split; assumption.
  - repeat split; assumption.
  - repeat split; assumption.
  - (* createProcessingStep *)
    unfold createProcessingStep, parse_json, setProcessForm, setSelectedBatch.
    unfold_handler. simpl.
    destruct (selectedBatch s) as [b|] eqn:Eb; simpl.
    + destruct (Hsel' b eq_refl) as [lb [Hlb Hinb]].
      case_split;
        (repeat split; try assumption; try discriminate;
         try (intros b' Hb'; rewrite Eb in Hb'; injection Hb' as <-; eauto);
         intros rows ret H; rewrite ?in_snoc in H;
         repeat (destruct H as [H|H]; try discriminate); eauto;
         injection H as <- <-;
         exists lb, b; eexists; repeat split; auto).
    + repeat split; try assumption;
        try (intros b' Hb'; rewrite Eb in Hb'; discriminate);
        intros rows ret H; rewrite ?in_snoc in H;
        repeat (destruct H as [H|H]; try discriminate); eauto.
  - (* createProduct *)
    unfold createProduct, parse_json, setProductForm, setShowProductForm.
    unfold_handler. simpl.
    case_split;
      (repeat split; try assumption;
       intros rows ret H; rewrite ?in_snoc in H;
       repeat (destruct H as [H|H]; try discriminate); eauto;
       injection H as <- <-;
       exists (processingSteps s); eexists; repeat split; auto).
  - repeat split; assumption.
Qed.

Lemma fetched_later (q : query) (events : list event) (e : event) (d : database)
      (l : list row) :
  fetched generateQRCode profile q events d l ->
  fetched generateQRCode profile q (events ++ [e]) d l.
Proof.
  intros (earlier & later & -> & ->). exists earlier, (later ++ [e]).
  split; [|reflexivity]. rewrite <- app_assoc. reflexivity.
Qed.

Lemma after_snoc (events : list event) (e : event) (d : database) :
  after generateQRCode profile (events ++ [e]) d
  = handle generateQRCode profile e (after generateQRCode profile events d).
Proof. unfold after. rewrite fold_left_app. reflexivity. Qed.

(** Every session keeps the invariant, for the answers its own fetches
    received. *)
Lemma after_session (events : list event) (d : database) :
  session_invariant (fetched generateQRCode profile approved_batches_query events d)
                    (fetched generateQRCode profile (own_steps_query profile) events d)
                    profile (after generateQRCode profile events d).
Proof.
  induction events as [|e events IH] using rev_ind.
  - unfold session_invariant, after, mounted. simpl.
    repeat split; auto; try discriminate; intros ? ? [].
  - rewrite after_snoc.
    apply (handle_session _ _ _ _ e _ (fun l => fetched_later _ events e d l)
                          (fun l => fetched_later _ events e d l)); [|exact IH].
    intros ->. split; exists events, []; split; reflexivity.
Qed.

(** Lab approval gates processing: in any session of the Factory portal,
    every processing step sent to the store is a single row, by the
    signed-in processor, for a batch taken from the rows the store
    returned to an earlier answered fetch of the session for the
    approved-batches query, so a batch with status 'approved' in the
    store as it was then; the step carries no completion date, so the
    portal never completes a step and [createProduct] does not count
    it. *)
Theorem processing_steps_on_approved_batches
        (events : list event) (d : database) (rows : list row) (returning : bool) :
  In (store_call (Store.insert processing_steps rows returning))
     (log (after generateQRCode profile events d)) ->
  exists earlier later batch step,
    events = earlier ++ FetchData None None :: later
    /\ In batch (run_select (db (after generateQRCode profile earlier d))
                            approved_batches_query)
    /\ get "batch_status" batch = Str "approved"
    /\ rows = [step]
    /\ get "batch_id" step = get "id" batch
    /\ get "processor_id" step = opt_get "id" profile
    /\ truthy (get "completion_date" step) = false
    /\ completed_batch_ids [step] = [].
Proof.
  intro H. destruct (after_session events d) as (_ & _ & _ & Hlog & _).
  destruct (Hlog rows returning H)
    as (l & batch & step & (earlier & later & Hev & ->) & Hin & Hrows & Hid & Hown & Hopen).
  exists earlier, later, batch, step. repeat split; try assumption.
  - eapply approved_batches_query_rows, Hin.
  - unfold completed_batch_ids. simpl. rewrite Hopen. reflexivity.
Qed.

(** In any session of the Factory portal, every product sent to the
    store is a single row whose [batch_ids] are the batch ids of the
    completed steps among the steps on display, and these are the rows
    the store returned to an earlier answered fetch of the session for
    the signed-in processor's steps (none before the first such fetch):
    each id is the [batch_id] of a returned step with a completion date
    and the processor's id. *)
Theorem products_from_own_completed_steps
        (events : list event) (d : database) (rows : list row) (returning : bool) :
  In (store_call (Store.insert products rows returning))
     (log (after generateQRCode profile events d)) ->
  exists steps r,
    rows = [r] /\ get "batch_ids" r = Arr (completed_batch_ids steps)
    /\ (steps = []
        \/ exists earlier later,
            events = earlier ++ FetchData None None :: later
            /\ steps = run_select (db (after generateQRCode profile earlier d))
                                  (own_steps_query profile))
    /\ forall id, In id (completed_batch_ids steps) ->
                  exists step, In step steps
                               /\ get "batch_id" step = id
                               /\ truthy (get "completion_date" step) = true
                               /\ same_cell (get "processor_id" step)
                                            (opt_get "id" profile) = true.
Proof.
  intro H. destruct (after_session events d) as (_ & _ & _ & _ & Hlog).
  destruct (Hlog rows returning H) as (steps & r & Hsteps & Hrows & Hids).
  exists steps, r. repeat split; try assumption.
  intros id Hid. apply completed_batch_ids_spec in Hid as [step [Hin [Hid Hdone]]].
  exists step. repeat split; try assumption.
  destruct Hsteps as [->|(earlier & later & _ & ->)]; [destruct Hin|].
  eapply own_steps_query_rows, Hin.
Qed.

End FactorySessionFacts.

(** ** Sessions of the Lab portal *)

Section LabSessionFacts.
Import JS UI Store Lab.
Variable profile : option row.

Lemma own_tests_query_rows (d : database) (test : row) :
  In test (run_select d (own_tests_query profile)) ->
  same_cell (get "lab_id" test) (opt_get "id" profile) = true.
Proof.
  intro Hin. apply in_run_select in Hin as [r [_ [Hm ->]]].
  rewrite get_expand_all.
  - simpl in Hm. rewrite andb_true_r in Hm. exact Hm.
  - repeat constructor. simpl. discriminate.
Qed.

Lemma handle_session_lab (queued queued' : list row -> Prop)
      (e : event) (w : world State) :
  (forall l, queued l -> queued' l) ->
  (e = FetchQualityTests None -> queued' (run_select (db w) (own_tests_query profile))) ->
  session_invariant queued w -> session_invariant queued' (handle profile e w).
Proof.
  intros Hqueued Hfetch (Hqueue & Hsel & Hlog).
  assert (Hqueue' : qualityTests (ui w) = [] \/ queued' (qualityTests (ui w)))
    by (destruct Hqueue; auto).
  assert (Hsel' : forall test, selectedTest (ui w) = Some test ->
                               exists l, queued' l /\ In test l).
  { intros test Ht. destruct (Hsel test Ht) as [l [Hl Hin]]. eauto. }
  assert (Hlog' : forall t patch where_,
             In (store_call (Store.update t patch where_)) (log w) ->
             t = quality_tests /\ update_sent queued' patch where_).
  { intros t patch where_ H. destruct (Hlog t patch where_ H)
      as (Ht & l & test & results & now & Hl & Hrest).
    split; [exact Ht|]. exists l, test, results, now. split; [auto|exact Hrest]. }
  clear Hqueue Hsel Hlog Hqueued.
  destruct w as [s d l]. simpl in *.
  destruct e; unfold session_invariant, handle; simpl.
  - unfold fetchQualityTests, setQualityTests, setLoading. unfold_handler.
    destruct rejected; simpl;
      (refine (conj _ (conj _ _)); try assumption;
       try (right; apply Hfetch; reflexivity);
       intros t patch where_ H; rewrite ?in_snoc in H;
       repeat (destruct H as [H|H]; try discriminate); eauto).
  - destruct (nth_error (qualityTests s) index) as [test|] eqn:E; simpl;
      refine (conj _ (conj _ _)); try assumption.
    intros test' Htest'. injection Htest' as <-.
    apply nth_error_In in E.
    destruct Hqueue' as [Hnil|Hl]; [rewrite Hnil in E; destruct E|eauto].
  - refine (conj _ (conj _ _)); try assumption. discriminate.
  - refine (conj _ (conj _ _)); assumption.
  - unfold updateTestResults, setSelectedTest, setTestResults. unfold_handler.
    destruct (selectedTest s) as [test|] eqn:Et; simpl.
    + destruct (Hsel' test eq_refl) as [lt [Hlt Hint]].
      destruct rejected; simpl;
        (refine (conj _ (conj _ _)); try assumption; try discriminate;
         try (intros test' Htest'; rewrite Et in Htest';
              injection Htest' as <-; eauto);
         intros t patch where_ H; rewrite ?in_snoc in H;
         repeat (destruct H as [H|H]; try discriminate); eauto;
         injection H as <- <- <-;
         (split; [reflexivity|]);
         exists lt, test; eexists; eexists; repeat split; assumption).
    + refine (conj _ (conj _ _)); try assumption.
      intros test' Htest'. rewrite Et in Htest'. discriminate.
Qed.

Lemma after_session_lab (events : list event) (d : database) :
  session_invariant (fetched profile events d) (after profile events d).
Proof.
  induction events as [|e events IH] using rev_ind.
  - unfold session_invariant, after, mounted. simpl.
    refine (conj (or_introl eq_refl) (conj _ _)); [discriminate | intros ? ? ? []].
  - unfold after. rewrite fold_left_app. simpl.
    apply (handle_session_lab (fetched profile events d)); [| |exact IH].
    + intros l (earlier & later & -> & ->). exists earlier, (later ++ [e]).
      split; [|reflexivity]. rewrite <- app_assoc. reflexivity.
    + intros ->. exists events, []. split; reflexivity.
Qed.

(** In any session of the Lab portal, every update sent to the store goes
    to [quality_tests], carries the results patch (status 'completed'),
    and is filtered by the id of a test among the rows the store returned
    to an earlier answered fetch of the session for the signed-in lab's
    tests, so a test assigned to that lab in the store as it was then. *)
Theorem updates_target_own_tests
        (events : list event) (d : database)
        (t : table) (patch : row) (where_ : list filter) :
  In (store_call (Store.update t patch where_)) (log (after profile events d)) ->
  t = quality_tests
  /\ exists earlier later test results now,
      events = earlier ++ FetchQualityTests None :: later
      /\ In test (run_select (db (after profile earlier d)) (own_tests_query profile))
      /\ where_ = [eq_filter "id" (get "id" test)]
      /\ patch = results_patch results now
      /\ same_cell (get "lab_id" test) (opt_get "id" profile) = true.
Proof.
  intro H. destruct (after_session_lab events d) as (_ & _ & Hlog).
  destruct (Hlog t patch where_ H)
    as (Ht & l & test & results & now & (earlier & later & Hev & ->) & Hin & Hw & Hp).
  split; [exact Ht|].
  exists earlier, later, test, results, now. repeat split; try assumption.
  eapply own_tests_query_rows, Hin.
Qed.

End LabSessionFacts.

(** ** The store under the portals *)

Section StoreGrowthFacts.
Import JS UI Store Portals.
Context {builtins : Builtins}.
Variable generateQRCode : value -> string.

Lemma operate_grows (d : database) (o : operation) (t : table) :
  (t <> quality_tests ->
   exists added, store_after (operate generateQRCode d o) t = d t ++ added)
  /\ List.length (store_after (operate generateQRCode d o) quality_tests)
     = List.length (d quality_tests).
Proof.
  destruct o as [a| | | | |]; [destruct a|..]; run_operation;
    (split;
     [ intro Hne; unfold run_insert, run_update;
       destruct t; simpl; try contradiction;
       first [ eexists; reflexivity
             | exists []; symmetry; apply app_nil_r ]
     | unfold run_insert, run_update; simpl;
       rewrite ?length_map; reflexivity ]).
Qed.

(** No portal operation deletes, reorders or rewrites a stored row
    outside [quality_tests]: after any sequence of operations every other
    table is the table as it was with rows added at the end, and
    [quality_tests] has as many rows as before. *)
Theorem store_only_grows (ops : list operation) (d : database) (t : table) :
  (t <> quality_tests ->
   exists added, store_after_all generateQRCode ops d t = d t ++ added)
  /\ List.length (store_after_all generateQRCode ops d quality_tests)
     = List.length (d quality_tests).
Proof.
  revert d. induction ops as [|o ops IH]; intro d; simpl.
  - split; [intros _; exists []; symmetry; apply app_nil_r | reflexivity].
  - destruct (IH (store_after (operate generateQRCode d o))) as [Hgrow Hlen].
    destruct (operate_grows d o t) as [Hgrow1 Hlen1].
    split.
    + intro Hne. destruct (Hgrow Hne) as [added ->].
      destruct (Hgrow1 Hne) as [added1 ->].
      exists (added1 ++ added). rewrite app_assoc. reflexivity.
    + rewrite Hlen. exact Hlen1.
Qed.

End StoreGrowthFacts.

(** ** Fetches *)

Section FetchFacts.
Import JS UI Store Portals.
Context {builtins : Builtins}.
Variable generateQRCode : value -> string.


(** An answered fetch loads what the store holds: when every query of
    the Factory, Lab or Admin fetch is answered, the lists on display
    become the rows the store returns for the queries (approved batches
    and the processor's own steps; the lab's own tests; all profiles,
    herbs and rules), the spinner is turned off, every other member of
    the component state is kept, nothing is written and no toast is
    raised. This is also what the refetch after a successful action does
    to the state that action left. *)
Theorem answered_fetch_loads (d : database) (o : operation) :
  match o with
  | FactoryFetch profile None None st =>
      operate generateQRCode d o
      = {| screen_after :=
             FactoryScreen
               {| Factory.availableBatches := run_select d Factory.approved_batches_query;
                  Factory.processingSteps :=
                    run_select d (Factory.own_steps_query profile);
                  Factory.selectedBatch := Factory.selectedBatch st;
                  Factory.processForm := Factory.processForm st;
                  Factory.productForm := Factory.productForm st;
                  Factory.showProductForm := Factory.showProductForm st;
                  Factory.loading := false |};
           store_after := d;
           effects := [store_call (select Factory.approved_batches_query false);
                       store_call (select (Factory.own_steps_query profile) false)] |}
  | LabFetch profile None st =>
      operate generateQRCode d o
      = {| screen_after :=
             LabScreen {| Lab.qualityTests := run_select d (Lab.own_tests_query profile);
                          Lab.selectedTest := Lab.selectedTest st;
                          Lab.testResults := Lab.testResults st;
                          Lab.loading := false |};
           store_after := d;
           effects := [store_call (select (Lab.own_tests_query profile) false)] |}
  | AdminFetch None None None st =>
      screen_after (operate generateQRCode d o)
      = AdminScreen
          {| Admin.users := run_select d (Admin.newest_first profiles []);
             Admin.herbs := run_select d (Admin.newest_first herbs []);
             Admin.complianceRules :=
               run_select d (Admin.newest_first compliance_rules
                               [Rel "herbs" "herb_id" herbs
                                    (Some ["botanical_name"; "local_name"]) []]);
             Admin.activeTab := Admin.activeTab st;
             Admin.loading := false;
             Admin.showHerbForm := Admin.showHerbForm st;
             Admin.showRuleForm := Admin.showRuleForm st;
             Admin.herbForm := Admin.herbForm st;
             Admin.ruleForm := Admin.ruleForm st |}
      /\ store_after (operate generateQRCode d o) = d
      /\ List.filter is_notification (effects (operate generateQRCode d o)) = []
  | _ => True
  end.
Proof.
  destruct o as [a|profile [e1|] [e2|] st|profile [e|] st| | |[e1|] [e2|] [e3|] st];
    try exact I;
    unfold_portal; unfold_handler; simpl; auto.
Qed.

(** A collector without a collector profile is no error: when the
    profile lookup is answered with no row (or several) and the herbs
    are read, the fetch raises no toast, does not query the collection
    events, and ends with the herbs loaded, no collector, no events. *)
Theorem fetchData_without_collector
        (profile : option row) (events_rejected : option exn)
        (st : Collector.State) (d : database) :
  List.length (run_select d (Collector.own_collector_query profile)) <> 1 ->
  UI.effects (Collector.fetchData profile None None events_rejected) st d
  = [store_call (select (Collector.own_collector_query profile) true);
     store_call (select Collector.all_herbs_query false)]
  /\ UI.state_after (Collector.fetchData profile None None events_rejected) st d
     = {| Collector.herbs := run_select d Collector.all_herbs_query;
          Collector.collectionEvents := [];
          Collector.collector := None;
          Collector.location := Collector.location st;
          Collector.showCollectionForm := Collector.showCollectionForm st;
          Collector.collectionForm := Collector.collectionForm st;
          Collector.loading := false |}.
Proof.
  intro Hrows.
  unfold Collector.fetchData, Collector.is_real_error, Collector.setCollector,
    Collector.setHerbs, Collector.setCollectionEvents, Collector.setLoading.
  unfold UI.effects, UI.state_after. unfold_handler. simpl.
  destruct (run_select d (Collector.own_collector_query profile)) as [|r [|r' rest]];
    simpl in *; try (split; reflexivity).
  contradiction Hrows. reflexivity.
Qed.

End FetchFacts.


Lemma fetchData_without_collector_witness :
  List.length (Store.run_select Sample.herbs_db
                 (Collector.own_collector_query Sample.collector_profile)) <> 1
  /\ UI.effects (Collector.fetchData Sample.collector_profile None None None)
                Collector.initial Sample.herbs_db
     = [UI.store_call (Store.select
                         (Collector.own_collector_query Sample.collector_profile) true);
        UI.store_call (Store.select Collector.all_herbs_query false)].
Proof.
  assert (H : List.length (Store.run_select Sample.herbs_db
                             (Collector.own_collector_query Sample.collector_profile))
              <> 1) by (vm_compute; discriminate).
  split; [exact H|].
  exact (proj1 (fetchData_without_collector Sample.collector_profile None
                  Collector.initial Sample.herbs_db H)).
Defined.

(** ** Witnesses on the sample sessions *)

Lemma succeeded_action_witness :
  let d := Sample.trace_db ["B1"; "B2"] in
  let st := {| Consumer.qrCode := (Sample.token_of ["B1"; "B2"] ++ " ")%string;
               Consumer.traceData := None;
               Consumer.loading := false;
               Consumer.error := "earlier error" |} in
  let a := Portals.ScanQRCode Sample.no_rejection st in
  Portals.succeeded (Portals.perform (builtins := Sample.builtins)
                                     Sample.generateQRCode d a) = true
  /\ exists data,
      Aggregator.resolve d Sample.no_rejection (JS.trim (Consumer.qrCode st))
      = UI.Done data
      /\ (Aggregator.error data = None \/ Aggregator.error data = Some EmptyString)
      /\ Portals.store_after
           (Portals.perform (builtins := Sample.builtins) Sample.generateQRCode d a)
         = d
      /\ Portals.screen_after
           (Portals.perform (builtins := Sample.builtins) Sample.generateQRCode d a)
         = Portals.ConsumerScreen
             {| Consumer.qrCode := Consumer.qrCode st;
                Consumer.traceData := Some (Aggregator.trace data);
                Consumer.loading := false;
                Consumer.error := EmptyString |}.
Proof.
  intros d st a.
  assert (H : Portals.succeeded (Portals.perform (builtins := Sample.builtins)
                                   Sample.generateQRCode d a) = true)
    by (vm_compute; reflexivity).
  split; [exact H|].
  exact (succeeded_action (builtins := Sample.builtins) Sample.generateQRCode d a H).
Defined.

Lemma refetch_after_success_witness :
  let a := Portals.CreateHerb (inr [Admin.herb_row Admin.empty_herb_form])
                              Sample.admin_state in
  Portals.succeeded (Portals.perform (builtins := Sample.builtins)
                                     Sample.generateQRCode Sample.herbs_db a) = true
  /\ existsb (fun e => match e with UI.spawn _ => true | _ => false end)
             (Portals.effects (Portals.perform (builtins := Sample.builtins)
                                 Sample.generateQRCode Sample.herbs_db a))
     = true.
Proof.
  intro a. split; [reflexivity|].
  exact (refetch_after_success (builtins := Sample.builtins) Sample.generateQRCode
           Sample.herbs_db a eq_refl).
Defined.

Lemma processing_steps_on_approved_batches_witness :
  let after := Factory.after (builtins := Sample.builtins) Sample.generateQRCode
                             Sample.factory_profile in
  let step := [("batch_id", JS.Str "B1"); ("processor_id", JS.Str "factory-1");
               ("process_type", JS.Str "drying");
               ("input_quantity_kg", JS.Num (JS.Dec 25 (-1)));
               ("process_parameters", JS.Obj []); ("process_conditions", JS.Obj [])] in
  In (UI.store_call (Store.insert Store.processing_steps [step] false))
     (UI.log (after Sample.processing_session Sample.factory_db))
  /\ exists earlier later batch step',
      Sample.processing_session = earlier ++ Factory.FetchData None None :: later
      /\ In batch (Store.run_select (UI.db (after earlier Sample.factory_db))
                                    Factory.approved_batches_query)
      /\ JS.get "batch_status" batch = JS.Str "approved"
      /\ [step] = [step']
      /\ JS.get "batch_id" step' = JS.get "id" batch
      /\ JS.get "processor_id" step' = JS.opt_get "id" Sample.factory_profile
      /\ JS.truthy (JS.get "completion_date" step') = false
      /\ Factory.completed_batch_ids [step'] = [].
Proof.
  intros after step.
  assert (H : In (UI.store_call (Store.insert Store.processing_steps [step] false))
                 (UI.log (after Sample.processing_session Sample.factory_db))).
  { vm_compute. right. right. left. reflexivity. }
  split; [exact H|].
  exact (processing_steps_on_approved_batches (builtins := Sample.builtins)
           Sample.generateQRCode Sample.factory_profile Sample.processing_session
           Sample.factory_db [step] false H).
Defined.

Lemma products_from_own_completed_steps_witness :
  let after := Factory.after (builtins := Sample.builtins) Sample.generateQRCode
                             Sample.factory_profile in
  let st := UI.ui (after [Factory.FetchData None None;
                          Factory.ChangeProductForm Sample.product_form]
                         Sample.factory_db) in
  let rows := [Factory.product_row (builtins := Sample.builtins) Sample.generateQRCode
                 Sample.factory_profile 1700000000000 (JS.Obj []) st] in
  In (UI.store_call (Store.insert Store.products rows false))
     (UI.log (after Sample.factory_session Sample.factory_db))
  /\ exists steps r,
      rows = [r] /\ JS.get "batch_ids" r = JS.Arr (Factory.completed_batch_ids steps)
      /\ (steps = []
          \/ exists earlier later,
              Sample.factory_session = earlier ++ Factory.FetchData None None :: later
              /\ steps = Store.run_select (UI.db (after earlier Sample.factory_db))
                                          (Factory.own_steps_query Sample.factory_profile))
      /\ forall id, In id (Factory.completed_batch_ids steps) ->
                    exists step,
                      In step steps
                      /\ JS.get "batch_id" step = id
                      /\ JS.truthy (JS.get "completion_date" step) = true
                      /\ Store.same_cell (JS.get "processor_id" step)
                                         (JS.opt_get "id" Sample.factory_profile)
                         = true.
Proof.
  intros after st rows.
  assert (H : In (UI.store_call (Store.insert Store.products rows false))
                 (UI.log (after Sample.factory_session Sample.factory_db))).
  { vm_compute. right. right. left. reflexivity. }
  split; [exact H|].
  exact (products_from_own_completed_steps (builtins := Sample.builtins)
           Sample.generateQRCode Sample.factory_profile Sample.factory_session
           Sample.factory_db rows false H).
Defined.

Lemma updates_target_own_tests_witness :
  let patch := Lab.results_patch Lab.empty_results "2024-03-01T10:00:00.000Z" in
  let where_ := [Store.eq_filter "id" (JS.Str "T1")] in
  In (UI.store_call (Store.update Store.quality_tests patch where_))
     (UI.log (Lab.after Sample.lab_profile Sample.lab_session Sample.lab_db))
  /\ exists earlier later test results now,
      Sample.lab_session = earlier ++ Lab.FetchQualityTests None :: later
      /\ In test (Store.run_select
                    (UI.db (Lab.after Sample.lab_profile earlier Sample.lab_db))
                    (Lab.own_tests_query Sample.lab_profile))
      /\ where_ = [Store.eq_filter "id" (JS.get "id" test)]
      /\ patch = Lab.results_patch results now
      /\ Store.same_cell (JS.get "lab_id" test) (JS.opt_get "id" Sample.lab_profile)
         = true.
Proof.
  intros patch where_.
  assert (H : In (UI.store_call (Store.update Store.quality_tests patch where_))
                 (UI.log (Lab.after Sample.lab_profile Sample.lab_session
                                    Sample.lab_db))).
  { vm_compute. right. left. reflexivity. }
  split; [exact H|].
  exact (proj2 (updates_target_own_tests Sample.lab_profile Sample.lab_session
                  Sample.lab_db Store.quality_tests patch where_ H)).
Defined.

Lemma store_only_grows_witness :
  let ops := [Portals.User (Portals.CreateHerb
                              (inr [Admin.herb_row Admin.empty_herb_form])
                              Sample.admin_state)] in
  Store.herbs <> Store.quality_tests
  /\ exists added,
      Portals.store_after_all (builtins := Sample.builtins) Sample.generateQRCode
                              ops Sample.herbs_db Store.herbs
      = Sample.herbs_db Store.herbs ++ added.
Proof.
  intro ops.
  assert (H : Store.herbs <> Store.quality_tests) by discriminate.
  split; [exact H|].
  exact (proj1 (store_only_grows (builtins := Sample.builtins) Sample.generateQRCode
                  ops Sample.herbs_db Store.herbs) H).
Defined.
